(** * The filter evaluation engine of the investing repository

    A shallow embedding of [src/filters/base.py], [src/filters/core_filters.py],
    [src/filters/additional_filters.py], [src/filters/__init__.py],
    [src/analysis/company_analyzer.py] and the function
    [convert_results_to_df] of [app.py].

    Numbers are IEEE-754 binary64 values (Rocq's primitive floats), the
    type the Python code computes with.  The file has four layers:

    - the Python values the code handles: exceptions, insertion-ordered
      dictionaries, truthiness and string formatting;
    - the part of pandas and numpy the filters call: frames built from a
      list of records, column selection, element-wise arithmetic and the
      reductions [mean] and [std];
    - the filter classes, the catalogue and the orchestrator, each
      definition following the Python method of the same name;
    - the properties.

    Conventions of the library layer:

    - a value of a record is a float, an integer that fits 64 bits, a
      string or [None];
    - in pandas arithmetic and reductions a null ([None] or NaN) is NaN,
      and a string is not a number ([TypeError]);
    - a reduction adds its terms from left to right, starting from 0;
    - the digits Python prints for a finite float are a parameter
      ([float_repr]); NaN and the infinities print as Python prints
      them. *)

From Stdlib Require Import Floats ZArith List String Ascii Bool DecimalString Lia.
Import ListNotations.

Set Warnings "-inexact-float".
Set Implicit Arguments.

Local Open Scope list_scope.
Local Open Scope string_scope.

(* ================================================================== *)
(** * Python values *)
(* ================================================================== *)

(** ** Exceptions *)

Inductive exn : Type :=
| KeyError (key : string)
| TypeError
| NotImplementedError.

(** A computation that returns a value or raises. *)
Inductive exc (A : Type) : Type :=
| Ok (a : A)
| Raise (e : exn).

Arguments Ok {A} a.
Arguments Raise {A} e.

Definition bind {A B : Type} (m : exc A) (k : A -> exc B) : exc B :=
  match m with
  | Ok a => k a
  | Raise e => Raise e
  end.

Notation "x <- m ;; k" := (bind m (fun x => k))
  (at level 61, m at next level, right associativity).

(** [for x in xs: ys.append(f(x))], stopping at the first exception. *)
Fixpoint mapM {A B : Type} (f : A -> exc B) (xs : list A) : exc (list B) :=
  match xs with
  | [] => Ok []
  | x :: xs' => y <- f x ;; ys <- mapM f xs' ;; Ok (y :: ys)
  end.

(** [try: body except Exception: return None]. *)
Definition try_or_None {A : Type} (body : exc A) : option A :=
  match body with
  | Ok a => Some a
  | Raise _ => None
  end.

(** ** Dictionaries

    A Python [dict] keeps its keys in insertion order; assigning to a key
    that is already there replaces the value and leaves the key in place. *)

Definition dict (V : Type) : Type := list (string * V).

Fixpoint dict_get {V : Type} (d : dict V) (k : string) : option V :=
  match d with
  | [] => None
  | (k', v) :: d' => if String.eqb k' k then Some v else dict_get d' k
  end.

(** [k in d] *)
Definition dict_contains {V : Type} (d : dict V) (k : string) : bool :=
  match dict_get d k with
  | Some _ => true
  | None => false
  end.

(** [d[k]] *)
Definition dict_getitem {V : Type} (d : dict V) (k : string) : exc V :=
  match dict_get d k with
  | Some v => Ok v
  | None => Raise (KeyError k)
  end.

(** [d[k] = v] *)
Fixpoint dict_setitem {V : Type} (d : dict V) (k : string) (v : V) : dict V :=
  match d with
  | [] => [(k, v)]
  | (k', v') :: d' =>
      if String.eqb k' k then (k', v) :: d' else (k', v') :: dict_setitem d' k v
  end.

Definition dict_keys {V : Type} (d : dict V) : list string := map fst d.

(** ** Scalars held by a record or a frame

    A value of a quarterly record as the JSON decoder delivers it: a
    float, an integer, a string or [None]. *)

Inductive cell : Type :=
| CNum (x : float)
| CInt (n : Z)
| CStr (s : string)
| CNone.

Definition record : Type := dict cell.

(** Truth value of a scalar in an [if]: zero, the empty string and [None]
    are false; every other value, NaN included, is true. *)
Definition truthy (c : cell) : bool :=
  match c with
  | CNum x => negb (x =? 0)%float
  | CInt n => negb (n =? 0)%Z
  | CStr s => negb (String.eqb s EmptyString)
  | CNone => false
  end.

Definition string_of_Z (n : Z) : string := NilZero.string_of_int (Z.to_int n).

(** [str(x)] for a float.  The digits Python prints for a finite float
    (the shortest string that reads back as the same float) are not
    modelled: they are the parameter [float_repr]. *)
Definition str_float (float_repr : float -> string) (x : float) : string :=
  match Prim2SF x with
  | S754_nan => "nan"
  | S754_infinity false => "inf"
  | S754_infinity true => "-inf"
  | _ => float_repr x
  end.

(** [f"{c}"] *)
Definition py_str (float_repr : float -> string) (c : cell) : string :=
  match c with
  | CNum x => str_float float_repr x
  | CInt n => string_of_Z n
  | CStr s => s
  | CNone => "None"
  end.

(** [f"{s}"] for an optional string. *)
Definition str_opt (s : option string) : string :=
  match s with
  | Some s' => s'
  | None => "None"
  end.

(** [a or b] for an optional string [a]. *)
Definition or_else (a : option string) (b : string) : string :=
  match a with
  | Some s => if String.eqb s EmptyString then b else s
  | None => b
  end.

(** The integer nearest to [m * 2^e], ties to even. *)
Definition round_half_even (m : positive) (e : Z) : Z :=
  if (0 <=? e)%Z then Z.pos m * 2 ^ e
  else
    let d := (2 ^ (- e))%Z in
    let q := (Z.pos m / d)%Z in
    let r := (Z.pos m mod d)%Z in
    match (2 * r ?= d)%Z with
    | Lt => q
    | Gt => (q + 1)%Z
    | Eq => if Z.even q then q else (q + 1)%Z
    end.

(** [f"{x:.0%}"]: the float is multiplied by 100 as a float, and the
    product is printed rounded to an integer, followed by a percent sign. *)
Definition format_percent0 (x : float) : string :=
  match Prim2SF (x * 100)%float with
  | S754_nan => "nan%"
  | S754_infinity s => if s then "-inf%" else "inf%"
  | S754_zero s => if s then "-0%" else "0%"
  | S754_finite s m e =>
      (if s then "-" else EmptyString) ++ string_of_Z (round_half_even m e) ++ "%"
  end.

(* ================================================================== *)
(** * pandas and numpy, as far as the filters use them *)
(* ================================================================== *)

(** ** Numbers *)

Definition is_null (c : cell) : bool :=
  match c with
  | CNum x => is_nan x
  | CNone => true
  | _ => false
  end.

Definition is_str (c : cell) : bool :=
  match c with
  | CStr _ => true
  | _ => false
  end.

Definition is_int (c : cell) : bool :=
  match c with
  | CInt _ => true
  | _ => false
  end.

Definition is_none (c : cell) : bool :=
  match c with
  | CNone => true
  | _ => false
  end.

(** An [int64] as a [float64] (for an integer below 2^63 in absolute
    value). *)
Definition float_of_Z (n : Z) : float :=
  if (n <? 0)%Z then (- of_uint63 (Uint63.of_Z (- n)))%float
  else of_uint63 (Uint63.of_Z n).

Definition float_of_nat (n : nat) : float := float_of_Z (Z.of_nat n).

(** A scalar as pandas reads it in arithmetic: a null is NaN, a string
    is not a number. *)
Definition as_float (c : cell) : exc float :=
  match c with
  | CNum x => Ok x
  | CInt n => Ok (float_of_Z n)
  | CNone => Ok nan
  | CStr _ => Raise TypeError
  end.

(** A scalar as numpy reads it in an array operation: neither [None]
    nor a string is a number. *)
Definition np_float (c : cell) : exc float :=
  match c with
  | CNum x => Ok x
  | CInt n => Ok (float_of_Z n)
  | CNone => Raise TypeError
  | CStr _ => Raise TypeError
  end.

(** ** Series *)

Definition Series : Type := list cell.

(** Element-wise operation on two Series of one frame.  A position where
    either side is null gives NaN; elsewhere both sides must be numbers. *)
Definition cell_op (op : float -> float -> float) (ab : cell * cell) : exc cell :=
  let (a, b) := ab in
  if is_null a || is_null b then Ok (CNum nan)
  else x <- as_float a ;; y <- as_float b ;; Ok (CNum (op x y)).

Definition series_op (op : float -> float -> float) (a b : Series) : exc Series :=
  mapM (cell_op op) (combine a b).

(** [a / b] and [a - b] *)
Definition series_div : Series -> Series -> exc Series := series_op PrimFloat.div.
Definition series_sub : Series -> Series -> exc Series := series_op PrimFloat.sub.

(** Left-to-right floating-point sum. *)
Definition fsum (xs : list float) : float := fold_left PrimFloat.add xs 0%float.

Definition dropna (xs : list float) : list float :=
  filter (fun x => negb (is_nan x)) xs.

(** [nanmean]: the mean of the entries that are not NaN, NaN when there
    is none. *)
Definition nanmean (xs : list float) : float :=
  let ys := dropna xs in
  match ys with
  | [] => nan
  | _ :: _ => (fsum ys / float_of_nat (List.length ys))%float
  end.

(** [nanstd] with [ddof=1]: the sample standard deviation of the entries
    that are not NaN, NaN when there are fewer than two. *)
Definition nanstd (xs : list float) : float :=
  let ys := dropna xs in
  let n := List.length ys in
  if (n <=? 1)%nat then nan
  else
    let avg := (fsum ys / float_of_nat n)%float in
    let sqr := map (fun y => ((avg - y) * (avg - y))%float) ys in
    sqrt (fsum sqr / float_of_nat (n - 1))%float.

(** [s.mean()] and [s.std()] *)
Definition series_mean (s : Series) : exc float :=
  xs <- mapM as_float s ;; Ok (nanmean xs).

Definition series_std (s : Series) : exc float :=
  xs <- mapM as_float s ;; Ok (nanstd xs).

(** ** numpy arrays *)

(** [s.to_numpy()] keeps the elements. *)
Definition to_numpy (s : Series) : list cell := s.

(** [np.diff(a)]: the differences of consecutive elements. *)
Fixpoint np_diff (a : list cell) : exc (list float) :=
  match a with
  | [] => Ok []
  | x :: rest =>
      match rest with
      | [] => Ok []
      | y :: _ =>
          fx <- np_float x ;; fy <- np_float y ;;
          ds <- np_diff rest ;; Ok ((fy - fx)%float :: ds)
      end
  end.

(** [a[:-1]] *)
Definition all_but_last {A : Type} (a : list A) : list A := removelast a.

(** [d / a] for an array of floats [d] and an array [a] of equal length. *)
Definition np_divide (d : list float) (a : list cell) : exc (list float) :=
  mapM (fun p => y <- np_float (snd p) ;; Ok (fst p / y)%float) (combine d a).

(** [np.mean(a)]: sum over count, with no special case for NaN or for
    the empty array (0/0 is NaN). *)
Definition np_mean (xs : list float) : float :=
  (fsum xs / float_of_nat (List.length xs))%float.

(** ** Frames *)

(** A frame is stored by column: the number of rows and, for each column
    name, the cells of that column (one per row). *)
Record DataFrame : Type := {
  nrows : nat;
  data : dict Series
}.

(** [df[col]] *)
Definition getitem (df : DataFrame) (col : string) : exc Series :=
  dict_getitem (data df) col.

(** The column labels of a frame built from records: every key, in the
    order of first appearance. *)
Definition add_key (acc : list string) (k : string) : list string :=
  if existsb (String.eqb k) acc then acc else (acc ++ [k])%list.

Definition union_keys (recs : list record) : list string :=
  fold_left (fun acc r => fold_left add_key (dict_keys r) acc) recs [].

(** The type pandas infers for a column, and the cells as it stores them:
    a column that holds a string, or nothing but [None], keeps its objects;
    a column of integers keeps them; any other column becomes [float64],
    where integers are converted and [None] is NaN. *)
Definition infer_column (c : Series) : Series :=
  if existsb is_str c then c
  else if forallb is_int c then c
  else if forallb is_none c then c
  else map (fun x => match x with
                     | CInt n => CNum (float_of_Z n)
                     | CNone => CNum nan
                     | _ => x
                     end) c.

(** [pd.DataFrame(records)]: a key missing from a record is NaN there. *)
Definition DataFrame_of_records (recs : list record) : DataFrame :=
  {| nrows := List.length recs;
     data := map (fun k =>
                    (k, infer_column
                          (map (fun r => match dict_get r k with
                                         | Some c => c
                                         | None => CNum nan
                                         end) recs)))
                 (union_keys recs) |}.

Inductive dtype : Type := Object | Int64 | Float64.

Definition dtype_of (c : Series) : dtype :=
  if existsb (fun x => is_str x || is_none x) c then Object
  else if forallb is_int c then Int64
  else Float64.

(** The type of the rows [iterrows] yields: one type for the whole row. *)
Definition row_dtype (df : DataFrame) : dtype :=
  if existsb (fun kc => match dtype_of (snd kc) with Object => true | _ => false end)
       (data df)
  then Object
  else if existsb (fun kc => match dtype_of (snd kc) with Float64 => true | _ => false end)
            (data df)
  then Float64
  else Int64.

Definition cast (t : dtype) (c : cell) : cell :=
  match t, c with
  | Float64, CInt n => CNum (float_of_Z n)
  | _, _ => c
  end.

(** Row [i] of a frame: a Series indexed by the column labels. *)
Definition row_at (df : DataFrame) (i : nat) : dict cell :=
  map (fun kc => (fst kc, cast (row_dtype df) (nth i (snd kc) (CNum nan)))) (data df).

(** [df.iterrows()], without the index labels. *)
Definition iterrows (df : DataFrame) : list (dict cell) :=
  map (row_at df) (seq 0 (nrows df)).

(** [pd.DataFrame([row])]: the frame with that single row. *)
Definition DataFrame_of_row (row : dict cell) : DataFrame :=
  {| nrows := 1; data := map (fun kc => (fst kc, [snd kc])) row |}.

(** [row.get(key, default)] with the empty string as the default. *)
Definition row_get (row : dict cell) (key : string) : cell :=
  match dict_get row key with
  | Some c => c
  | None => CStr EmptyString
  end.


(* ================================================================== *)
(** * Filters: [src/filters/base.py] *)
(* ================================================================== *)

(** ** [Classification] *)

Module Classification.

Record t : Type := {
  min_value : option float;
  max_value : option float;
  description : string
}.

(** [Classification.contains] (base.py, lines 14-20) *)
Definition contains (self : t) (value : float) : bool :=
  if match min_value self with
     | Some m => (value <? m)%float
     | None => false
     end
  then false
  else if match max_value self with
          | Some m => (m <? value)%float
          | None => false
          end
  then false
  else true.

End Classification.

(** ** The result of a filter

    [get_result] returns a dictionary with the keys ["value"] and
    ["description"] and, depending on the filter, ["passes"],
    ["threshold"], ["classification"] and ["guidelines"].  A key that is
    not set is [None] here; the value of ["classification"] can itself be
    Python's [None], hence the nested option. *)

Module Result.

Record t : Type := {
  value : float;
  description : string;
  passes : option bool;
  threshold : option string;
  classification : option (option string);
  guidelines : option string
}.

End Result.

(** ** [FinancialFilter] and its subclasses

    An instance is the tuple of its dataclass fields together with the
    class it was made from, which selects the methods [calculate] and
    [get_result].  [industry_thresholds] is the attribute that
    [IndustryAdjustedInterestFilter.__init__] adds; instances of the other
    classes do not have it. *)

Inductive filter_class : Type :=
| FinancialFilter_class
| GrossProfitRatioFilter
| SGARatioFilter
| RDRatioFilter
| DepreciationRatioFilter
| InterestRatioFilter
| NetIncomeRatioFilter
| OperatingPLFilter
| RevenueTrendFilter
| OperatingMarginFilter
| SGAConsistencyFilter
| IndustryAdjustedInterestFilter.

Record FinancialFilter : Type := {
  class_of : filter_class;
  name : string;
  description : string;
  threshold : option float;
  threshold_text : option string;
  comparison : option string;
  classifications : list Classification.t;
  guidelines : option string;
  industry_thresholds : dict float
}.

(** The series [get_quarterly_data] returns: [pd.Series(values,
    index=quarters)], one (label, value) pair per position. *)
Definition LabelledSeries : Type := list (option string * float).

Definition pd_Series (values : list float) (index : list (option string))
  : LabelledSeries :=
  combine index values.

(** ** [calculate], class by class *)

(** [src/filters/core_filters.py] *)

Definition GrossProfitRatioFilter_calculate (income_df : DataFrame) : exc float :=
  col <- getitem income_df "grossProfitRatio" ;;
  series_mean col.

Definition SGARatioFilter_calculate (income_df : DataFrame) : exc float :=
  sga <- getitem income_df "sellingGeneralAndAdministrativeExpenses" ;;
  gp <- getitem income_df "grossProfit" ;;
  ratio <- series_div sga gp ;;
  series_mean ratio.

Definition RDRatioFilter_calculate (income_df : DataFrame) : exc float :=
  rd <- getitem income_df "researchAndDevelopmentExpenses" ;;
  gp <- getitem income_df "grossProfit" ;;
  ratio <- series_div rd gp ;;
  series_mean ratio.

Definition DepreciationRatioFilter_calculate (income_df : DataFrame) : exc float :=
  da <- getitem income_df "depreciationAndAmortization" ;;
  gp <- getitem income_df "grossProfit" ;;
  ratio <- series_div da gp ;;
  series_mean ratio.

Definition InterestRatioFilter_calculate (income_df : DataFrame) : exc float :=
  ie <- getitem income_df "interestExpense" ;;
  oi <- getitem income_df "operatingIncome" ;;
  ratio <- series_div ie oi ;;
  series_mean ratio.

Definition NetIncomeRatioFilter_calculate (income_df : DataFrame) : exc float :=
  col <- getitem income_df "netIncomeRatio" ;;
  series_mean col.

Definition OperatingPLFilter_calculate (income_df : DataFrame) : exc float :=
  gp <- getitem income_df "grossProfit" ;;
  oe <- getitem income_df "operatingExpenses" ;;
  operating_pl <- series_sub gp oe ;;
  gp' <- getitem income_df "grossProfit" ;;
  ratio <- series_div operating_pl gp' ;;
  series_mean ratio.

(** [src/filters/additional_filters.py] *)

Definition RevenueTrendFilter_calculate (income_df : DataFrame) : exc float :=
  col <- getitem income_df "revenue" ;;
  let revenues := to_numpy col in
  d <- np_diff revenues ;;
  growth_rates <- np_divide d (all_but_last revenues) ;;
  Ok (np_mean growth_rates).

Definition OperatingMarginFilter_calculate (income_df : DataFrame) : exc float :=
  oi <- getitem income_df "operatingIncome" ;;
  rev <- getitem income_df "revenue" ;;
  ratio <- series_div oi rev ;;
  series_mean ratio.

Definition SGAConsistencyFilter_calculate (income_df : DataFrame) : exc float :=
  sga <- getitem income_df "sellingGeneralAndAdministrativeExpenses" ;;
  gp <- getitem income_df "grossProfit" ;;
  sga_ratios <- series_div sga gp ;;
  s <- series_std sga_ratios ;;
  m <- series_mean sga_ratios ;;
  Ok (s / m)%float.

Definition IndustryAdjustedInterestFilter_calculate (income_df : DataFrame)
  : exc float :=
  ie <- getitem income_df "interestExpense" ;;
  oi <- getitem income_df "operatingIncome" ;;
  ratio <- series_div ie oi ;;
  series_mean ratio.

(** [self.calculate(income_df)]: the method of the instance's class.  The
    base class raises [NotImplementedError]. *)
Definition calculate (self : FinancialFilter) (income_df : DataFrame) : exc float :=
  match class_of self with
  | FinancialFilter_class => Raise NotImplementedError
  | GrossProfitRatioFilter => GrossProfitRatioFilter_calculate income_df
  | SGARatioFilter => SGARatioFilter_calculate income_df
  | RDRatioFilter => RDRatioFilter_calculate income_df
  | DepreciationRatioFilter => DepreciationRatioFilter_calculate income_df
  | InterestRatioFilter => InterestRatioFilter_calculate income_df
  | NetIncomeRatioFilter => NetIncomeRatioFilter_calculate income_df
  | OperatingPLFilter => OperatingPLFilter_calculate income_df
  | RevenueTrendFilter => RevenueTrendFilter_calculate income_df
  | OperatingMarginFilter => OperatingMarginFilter_calculate income_df
  | SGAConsistencyFilter => SGAConsistencyFilter_calculate income_df
  | IndustryAdjustedInterestFilter => IndustryAdjustedInterestFilter_calculate income_df
  end.

(** ** The methods of the base class *)

(** [FinancialFilter.passes_threshold] (base.py, lines 39-52) *)
Definition passes_threshold (self : FinancialFilter) (value : float) : bool :=
  match threshold self, comparison self with
  | Some t, Some c =>
      if String.eqb c ">=" then (t <=? value)%float
      else if String.eqb c "<=" then (value <=? t)%float
      else if String.eqb c ">" then (t <? value)%float
      else if String.eqb c "<" then (value <? t)%float
      else true
  | _, _ => true
  end.

(** [FinancialFilter.get_classification] (base.py, lines 54-59): the
    first classification of the list that contains the value. *)
Fixpoint first_containing (cs : list Classification.t) (value : float)
  : option string :=
  match cs with
  | [] => None
  | classification :: rest =>
      if Classification.contains classification value
      then Some (Classification.description classification)
      else first_containing rest value
  end.

Definition get_classification (self : FinancialFilter) (value : float)
  : option string :=
  first_containing (classifications self) value.

(** The label of one quarter in [get_quarterly_data] (base.py, lines
    82-87). *)
Definition quarter_label (float_repr : float -> string) (quarter : dict cell)
  : option string :=
  let fiscal_year := row_get quarter "calendarYear" in
  let period := row_get quarter "period" in
  if truthy fiscal_year && truthy period
  then Some (py_str float_repr fiscal_year ++ "-" ++ py_str float_repr period)
  else None.

(** The loop of [get_quarterly_data] (base.py, lines 77-87), with its
    two lists. *)
Fixpoint quarterly_loop (float_repr : float -> string) (self : FinancialFilter)
  (rows : list (dict cell)) (values : list float) (quarters : list (option string))
  : exc (list float * list (option string)) :=
  match rows with
  | [] => Ok (values, quarters)
  | quarter :: rest =>
      v <- calculate self (DataFrame_of_row quarter) ;;
      quarterly_loop float_repr self rest
        (values ++ [v])%list (quarters ++ [quarter_label float_repr quarter])%list
  end.

(** [FinancialFilter.get_quarterly_data] (base.py, lines 66-90) *)
Definition get_quarterly_data (float_repr : float -> string)
  (self : FinancialFilter) (income_df : DataFrame) : option LabelledSeries :=
  try_or_None
    (vq <- quarterly_loop float_repr self (iterrows income_df) [] [] ;;
     Ok (pd_Series (fst vq) (snd vq))).

(** [FinancialFilter.get_result] (base.py, lines 92-109) *)
Definition FinancialFilter_get_result (self : FinancialFilter)
  (income_df : DataFrame) : exc Result.t :=
  value <- calculate self income_df ;;
  Ok {| Result.value := value;
        Result.description := description self;
        Result.passes :=
          match threshold self with
          | Some _ => Some (passes_threshold self value)
          | None => None
          end;
        Result.threshold :=
          match threshold self with
          | Some t =>
              Some (or_else (threshold_text self)
                      (str_opt (comparison self) ++ " " ++ format_percent0 t))
          | None => None
          end;
        Result.classification :=
          match classifications self with
          | [] => None
          | _ :: _ => Some (get_classification self value)
          end;
        Result.guidelines :=
          match guidelines self with
          | Some g => if String.eqb g EmptyString then None else Some g
          | None => None
          end |}.

(** [IndustryAdjustedInterestFilter.get_result] (additional_filters.py,
    lines 75-86) *)
Definition IndustryAdjustedInterestFilter_get_result (self : FinancialFilter)
  (income_df : DataFrame) : exc Result.t :=
  value <- calculate self income_df ;;
  threshold <- dict_getitem (industry_thresholds self) "Default" ;;
  Ok {| Result.value := value;
        Result.description := description self;
        Result.passes := Some (value <=? threshold)%float;
        Result.threshold := Some ("≤ " ++ format_percent0 threshold);
        Result.classification := None;
        Result.guidelines := None |}.

(** [self.get_result(income_df)]: one class overrides the method. *)
Definition get_result (self : FinancialFilter) (income_df : DataFrame)
  : exc Result.t :=
  match class_of self with
  | IndustryAdjustedInterestFilter =>
      IndustryAdjustedInterestFilter_get_result self income_df
  | _ => FinancialFilter_get_result self income_df
  end.

(* ================================================================== *)
(** * The catalogue: [core_filters.py], [additional_filters.py], [__init__.py] *)
(* ================================================================== *)

(** ** Guideline texts *)

Definition GrossProfitRatioFilter_guidelines : string :=
  "Average over the last 10 years to ensure durable competitive advantage.
            Companies with excellent long-term economics have consistently higher gross profit margins.
            A company's durable advantage allows pricing well above cost of goods sold.".

Definition SGARatioFilter_guidelines : string :=
  "Look for consistency. Wild oscillations can indicate problems with adapting to falling sales.
            Some industries (e.g., Consumer) naturally have higher ratios due to advertising needs.
            Example: Coca Cola spends ~60% on SGA to maintain market relevance.".

Definition RDRatioFilter_guidelines : string :=
  "Buffett's view: Companies that spend heavily on R&D have inherent risk in their competitive advantage.
            High R&D often leads to increased costs in other areas (e.g., SGA for new product launches).
            Particularly important in pharmaceutical and tech sectors.".

Definition DepreciationRatioFilter_guidelines : string :=
  "Companies with durable competitive advantages usually have low D&A costs.
            Exceptions: capital-intensive industries (utilities, airlines, telecoms) can have high D&A but still maintain moats.
            Best advantages come from scalable, asset-light sources (brands, network effects, software, proprietary platforms).".

Definition InterestRatioFilter_guidelines : string :=
  "Varies significantly by industry: consumer goods (<15%), financial services (~30%).
            High interest expenses can indicate either fierce competition forcing debt-funded growth,
            or a leveraged buyout situation. Watch for dramatic increases over time.".

Definition NetIncomeRatioFilter_guidelines : string :=
  "Higher ratio compared to competitors suggests durable advantage.
            Be cautious with financial sector - very high ratios might indicate excessive risk-taking.
            Look for historical upward trend in earnings.
            Note: Buffett prefers net earnings over EPS (which can be manipulated via share buybacks).".

Definition OperatingPLFilter_guidelines : string :=
  "Operating P/L measures operational efficiency by showing how much profit remains after all operating expenses.
            Higher ratios indicate better cost management and operational efficiency.
            Watch for:
            - Consistent positive operating margins
            - Stable or improving trends
            - Comparison with industry averages".

(** ** [__init__] of each class *)

Definition GrossProfitRatioFilter_init : FinancialFilter :=
  {| class_of := GrossProfitRatioFilter;
     name := "gross_profit_ratio";
     description := "Indicates pricing power and efficiency";
     threshold := Some 0.4%float;
     comparison := Some ">=";
     threshold_text := Some "≥ 40%";
     guidelines := Some GrossProfitRatioFilter_guidelines;
     classifications :=
       [ Classification.Build_t (Some 0.4%float) None "Durable competitive advantage";
         Classification.Build_t (Some 0.2%float) (Some 0.4%float)
           "Highly-competitive industry";
         Classification.Build_t None (Some 0.2%float) "Fiercely competitive industry" ];
     industry_thresholds := [] |}.

Definition SGARatioFilter_init : FinancialFilter :=
  {| class_of := SGARatioFilter;
     name := "sga_ratio";
     description := "Lower ratio indicates better operational efficiency";
     threshold := Some 0.3%float;
     comparison := Some "<=";
     threshold_text := Some "≤ 30%";
     guidelines := Some SGARatioFilter_guidelines;
     classifications :=
       [ Classification.Build_t None (Some 0.3%float) "Excellent operational efficiency";
         Classification.Build_t (Some 0.3%float) (Some 0.8%float)
           "Normal range (varies by industry)";
         Classification.Build_t (Some 0.8%float) None "High overhead costs" ];
     industry_thresholds := [] |}.

Definition RDRatioFilter_init : FinancialFilter :=
  {| class_of := RDRatioFilter;
     name := "rd_ratio";
     description := "R&D investment relative to gross profit";
     threshold := None;
     comparison := None;
     threshold_text := None;
     guidelines := Some RDRatioFilter_guidelines;
     classifications :=
       [ Classification.Build_t None (Some 0.1%float)
           "Low R&D dependency - more stable advantage";
         Classification.Build_t (Some 0.1%float) (Some 0.2%float)
           "Moderate R&D investment";
         Classification.Build_t (Some 0.2%float) None
           "Heavy R&D investment - potential risk to long-term economics" ];
     industry_thresholds := [] |}.

Definition DepreciationRatioFilter_init : FinancialFilter :=
  {| class_of := DepreciationRatioFilter;
     name := "depreciation_ratio";
     description := "Lower ratio suggests less capital-intensive business";
     threshold := Some 0.1%float;
     comparison := Some "<=";
     threshold_text := Some "≤ 10%";
     guidelines := Some DepreciationRatioFilter_guidelines;
     classifications :=
       [ Classification.Build_t None (Some 0.1%float)
           "Asset-light business with potential durable advantage";
         Classification.Build_t (Some 0.1%float) (Some 0.2%float)
           "Moderate capital intensity";
         Classification.Build_t (Some 0.2%float) None
           "Capital-intensive business (check industry context)" ];
     industry_thresholds := [] |}.

Definition InterestRatioFilter_init : FinancialFilter :=
  {| class_of := InterestRatioFilter;
     name := "interest_ratio";
     description := "Lower ratio indicates less debt burden";
     threshold := None;
     comparison := None;
     threshold_text := None;
     guidelines := Some InterestRatioFilter_guidelines;
     classifications :=
       [ Classification.Build_t None (Some 0.15%float)
           "Strong position (typical for consumer goods)";
         Classification.Build_t (Some 0.15%float) (Some 0.3%float)
           "Moderate interest burden";
         Classification.Build_t (Some 0.3%float) (Some 0.7%float)
           "High interest burden (typical for financial services)";
         Classification.Build_t (Some 0.7%float) None
           "Warning: Very high interest burden (risk of distress)" ];
     industry_thresholds := [] |}.

Definition NetIncomeRatioFilter_init : FinancialFilter :=
  {| class_of := NetIncomeRatioFilter;
     name := "net_income_ratio";
     description := "Net earnings relative to gross profit";
     threshold := Some 0.2%float;
     comparison := Some ">";
     threshold_text := Some "> 20%";
     guidelines := Some NetIncomeRatioFilter_guidelines;
     classifications :=
       [ Classification.Build_t (Some 0.2%float) None "Durable competitive advantage";
         Classification.Build_t (Some 0.1%float) (Some 0.2%float)
           "Gray area - requires further analysis";
         Classification.Build_t None (Some 0.1%float)
           "Competitive industry without clear advantage" ];
     industry_thresholds := [] |}.

Definition OperatingPLFilter_init : FinancialFilter :=
  {| class_of := OperatingPLFilter;
     name := "operating_pl_ratio";
     description := "Operating Profit/Loss relative to gross profit";
     threshold := Some 0.3%float;
     comparison := Some ">=";
     threshold_text := Some "≥ 30%";
     guidelines := Some OperatingPLFilter_guidelines;
     classifications :=
       [ Classification.Build_t (Some 0.3%float) None "Strong operational efficiency";
         Classification.Build_t (Some 0.15%float) (Some 0.3%float)
           "Moderate operational efficiency";
         Classification.Build_t (Some 0%float) (Some 0.15%float)
           "Low operational efficiency";
         Classification.Build_t None (Some 0%float) "Operating at a loss - concerning" ];
     industry_thresholds := [] |}.

Definition RevenueTrendFilter_init : FinancialFilter :=
  {| class_of := RevenueTrendFilter;
     name := "revenue_trend";
     description := "Measures revenue growth trend over time";
     threshold := Some 0.0%float;
     comparison := Some ">";
     threshold_text := Some "Positive growth";
     guidelines := None;
     classifications := [];
     industry_thresholds := [] |}.

Definition OperatingMarginFilter_init : FinancialFilter :=
  {| class_of := OperatingMarginFilter;
     name := "operating_margin";
     description := "Operating profit as percentage of revenue";
     threshold := Some 0.15%float;
     comparison := Some ">=";
     threshold_text := Some "≥ 15%";
     guidelines := None;
     classifications := [];
     industry_thresholds := [] |}.

Definition SGAConsistencyFilter_init : FinancialFilter :=
  {| class_of := SGAConsistencyFilter;
     name := "sga_consistency";
     description := "Measures consistency of SGA expenses relative to gross profit";
     threshold := Some 0.25%float;
     comparison := Some "<=";
     threshold_text := Some "≤ 25% variation";
     guidelines := None;
     classifications := [];
     industry_thresholds := [] |}.

Definition IndustryAdjustedInterestFilter_init : FinancialFilter :=
  {| class_of := IndustryAdjustedInterestFilter;
     name := "industry_interest_ratio";
     description :=
       "Interest to operating income ratio with industry-specific thresholds";
     threshold := None;
     comparison := None;
     threshold_text := None;
     guidelines := None;
     classifications := [];
     industry_thresholds :=
       [ ("Consumer Goods", 0.15%float);
         ("Financials", 0.30%float);
         ("Default", 0.20%float) ] |}.

(** ** [src/filters/__init__.py] *)

Definition AVAILABLE_FILTERS : dict FinancialFilter :=
  [ ("gross_profit_ratio", GrossProfitRatioFilter_init);
    ("sga_ratio", SGARatioFilter_init);
    ("rd_ratio", RDRatioFilter_init);
    ("depreciation_ratio", DepreciationRatioFilter_init);
    ("interest_ratio", InterestRatioFilter_init);
    ("net_income_ratio", NetIncomeRatioFilter_init);
    ("revenue_trend", RevenueTrendFilter_init);
    ("operating_margin", OperatingMarginFilter_init);
    ("sga_consistency", SGAConsistencyFilter_init);
    ("industry_interest", IndustryAdjustedInterestFilter_init) ].

Definition DEFAULT_FILTERS : list string :=
  [ "gross_profit_ratio";
    "sga_ratio";
    "rd_ratio";
    "depreciation_ratio";
    "interest_ratio";
    "net_income_ratio" ].

(* ================================================================== *)
(** * The orchestrator: [src/analysis/company_analyzer.py] *)
(* ================================================================== *)

(** ** The provider

    What [json()] delivers for the income statement: a list of quarterly
    records, newest first, or an object (the provider's error message,
    or the empty dictionary [get_income_statement] returns after a failed
    request). *)
Inductive response : Type :=
| JList (l : list record)
| JObject (d : record).

(** The two methods of [FinancialModelingPrepAPI] the analyzer calls.
    [get_company_profile] returns the profile or the empty dictionary. *)
Record FinancialModelingPrepAPI : Type := {
  get_company_profile : string -> record;
  get_income_statement : string -> response
}.

Record CompanyAnalyzer : Type := {
  api : FinancialModelingPrepAPI;
  n_quarters : nat
}.

(** [CompanyAnalyzer.__init__] (company_analyzer.py, lines 8-11) *)
Definition CompanyAnalyzer_init (provider : FinancialModelingPrepAPI)
  : CompanyAnalyzer :=
  {| api := provider; n_quarters := 40 |}.

(** [r[:n]]: a list can be sliced, a dictionary cannot. *)
Definition slice_to (n : nat) (r : response) : exc (list record) :=
  match r with
  | JList l => Ok (firstn n l)
  | JObject _ => Raise TypeError
  end.

(** The dictionary [get_company_data] builds. *)
Record CompanyData : Type := {
  company_info : record;
  income_statement : list record
}.

(** [CompanyAnalyzer.get_company_data] (company_analyzer.py, lines
    13-19), of type [Optional[Dict]]. *)
Definition get_company_data (self : CompanyAnalyzer) (ticker : string)
  : exc (option CompanyData) :=
  let company_profile := get_company_profile (api self) ticker in
  first <- slice_to (n_quarters self) (get_income_statement (api self) ticker) ;;
  let income_statement := rev first in
  Ok (Some {| company_info := company_profile;
              income_statement := income_statement |}).

(** ** The result of an analysis *)

Record AnalysisResult : Type := {
  company_name : cell;
  sector : cell;
  filters : dict Result.t;
  quarterly_data : dict LabelledSeries
}.

(** [analyze_company] returns either the dictionary with the single key
    ["error"] or the dictionary of results. *)
Inductive Analysis : Type :=
| AnalysisError (error : string)
| Analysed (results : AnalysisResult).

(** The [for filter_name in filters] loop of [analyze_company]
    (company_analyzer.py, lines 51-63).  Every filter object has the
    method [get_quarterly_data], so the [hasattr] test is true. *)
Fixpoint analyze_loop (float_repr : float -> string) (income_df : DataFrame)
  (filter_names : list string) (results : AnalysisResult) : exc AnalysisResult :=
  match filter_names with
  | [] => Ok results
  | filter_name :: rest =>
      if negb (dict_contains AVAILABLE_FILTERS filter_name)
      then analyze_loop float_repr income_df rest results
      else
        filter_obj <- dict_getitem AVAILABLE_FILTERS filter_name ;;
        filter_result <- get_result filter_obj income_df ;;
        let results :=
          {| company_name := company_name results;
             sector := sector results;
             filters := dict_setitem (filters results) filter_name filter_result;
             quarterly_data := quarterly_data results |} in
        let results :=
          match get_quarterly_data float_repr filter_obj income_df with
          | Some series =>
              {| company_name := company_name results;
                 sector := sector results;
                 filters := filters results;
                 quarterly_data :=
                   dict_setitem (quarterly_data results) filter_name series |}
          | None => results
          end in
        analyze_loop float_repr income_df rest results
  end.

(** [CompanyAnalyzer.analyze_company] (company_analyzer.py, lines
    21-65).  [not company_data] is true for [None] (and for an empty
    dictionary, which [CompanyData] cannot be). *)
Definition analyze_company (float_repr : float -> string) (self : CompanyAnalyzer)
  (company : string) (requested : option (list string)) : exc Analysis :=
  company_data <- get_company_data self company ;;
  match company_data with
  | None => Ok (AnalysisError ("Company " ++ company ++ " not found"))
  | Some company_data =>
      let filter_names :=
        match requested with
        | None => DEFAULT_FILTERS
        | Some l => l
        end in
      cname <- dict_getitem (company_info company_data) "companyName" ;;
      sec <- dict_getitem (company_info company_data) "sector" ;;
      let results :=
        {| company_name := cname;
           sector := sec;
           filters := [];
           quarterly_data := [] |} in
      let income_df := DataFrame_of_records (income_statement company_data) in
      results <- analyze_loop float_repr income_df filter_names results ;;
      Ok (Analysed results)
  end.

(* ================================================================== *)
(** * The display: [format_results] and [convert_results_to_df] *)
(* ================================================================== *)

(** ** Text: [replace], [title], [join] and the percentage with two decimals

    Letters are the letters of ASCII: the identifiers of the catalogue
    hold no other. *)

Definition is_upper (c : ascii) : bool :=
  (65 <=? nat_of_ascii c)%nat && (nat_of_ascii c <=? 90)%nat.

Definition is_lower (c : ascii) : bool :=
  (97 <=? nat_of_ascii c)%nat && (nat_of_ascii c <=? 122)%nat.

Definition to_upper (c : ascii) : ascii :=
  if is_lower c then ascii_of_nat (nat_of_ascii c - 32) else c.

Definition to_lower (c : ascii) : ascii :=
  if is_upper c then ascii_of_nat (nat_of_ascii c + 32) else c.

(** [s.replace("_", " ")] *)
Fixpoint replace_underscores (s : string) : string :=
  match s with
  | EmptyString => EmptyString
  | String c rest =>
      String (if Ascii.eqb c "_" then " "%char else c) (replace_underscores rest)
  end.

(** [s.title()]: a letter that follows a letter is made lower case, any
    other letter upper case. *)
Fixpoint title_from (previous_is_cased : bool) (s : string) : string :=
  match s with
  | EmptyString => EmptyString
  | String c rest =>
      if is_upper c || is_lower c
      then String (if previous_is_cased then to_lower c else to_upper c)
             (title_from true rest)
      else String c (title_from false rest)
  end.

Definition title (s : string) : string := title_from false s.

(** ["\n"] *)
Definition newline : string := String (ascii_of_nat 10) EmptyString.

(** [sep.join(l)] *)
Fixpoint join (sep : string) (l : list string) : string :=
  match l with
  | [] => EmptyString
  | x :: rest =>
      match rest with
      | [] => x
      | _ :: _ => x ++ sep ++ join sep rest
      end
  end.

(** [s * n] *)
Fixpoint repeat_string (s : string) (n : nat) : string :=
  match n with
  | O => EmptyString
  | S n' => s ++ repeat_string s n'
  end.

Definition two_digits (n : Z) : string :=
  if (n <? 10)%Z then "0" ++ string_of_Z n else string_of_Z n.

(** [f"{x:.2%}"] *)
Definition format_percent2 (x : float) : string :=
  match Prim2SF (x * 100)%float with
  | S754_nan => "nan%"
  | S754_infinity s => if s then "-inf%" else "inf%"
  | S754_zero s => if s then "-0.00%" else "0.00%"
  | S754_finite s m e =>
      let n := round_half_even (m * 100) e in
      (if s then "-" else EmptyString)
      ++ string_of_Z (n / 100) ++ "." ++ two_digits (n mod 100) ++ "%"
  end.

(** [filter_data["threshold"]] *)
Definition threshold_item (filter_data : Result.t) : exc string :=
  match Result.threshold filter_data with
  | Some text => Ok text
  | None => Raise (KeyError "threshold")
  end.

(** ** [format_results] (company_analyzer.py, lines 68-88) *)

Fixpoint format_loop (entries : dict Result.t) (output : list string)
  : exc (list string) :=
  match entries with
  | [] => Ok output
  | (name, filter_data) :: rest =>
      let filter_name := title (replace_underscores name) in
      let value := format_percent2 (Result.value filter_data) in
      let line := filter_name ++ ": " ++ value in
      line <- match Result.passes filter_data with
              | Some passes =>
                  let status := if passes then "✓" else "✗" in
                  threshold <- threshold_item filter_data ;;
                  Ok (line ++ " [" ++ status ++ "] (Threshold: " ++ threshold ++ ")")
              | None => Ok line
              end ;;
      let output := (output ++ [line])%list in
      let output := (output ++ [("  " ++ Result.description filter_data)%string])%list in
      format_loop rest output
  end.

Definition format_results (float_repr : float -> string) (results : Analysis)
  : exc string :=
  match results with
  | AnalysisError error => Ok error
  | Analysed r =>
      let output :=
        [ "Analysis for " ++ py_str float_repr (company_name r)
          ++ " (" ++ py_str float_repr (sector r) ++ ")";
          repeat_string "-" 50 ] in
      output <- format_loop (filters r) output ;;
      Ok (join newline output)
  end.

(** ** [convert_results_to_df] (app.py, lines 21-39) *)

Fixpoint convert_loop (entries : dict Result.t) (rows : list record)
  : exc (list record) :=
  match entries with
  | [] => Ok rows
  | (name, filter_data) :: rest =>
      let row : record :=
        [ ("Metric", CStr (title (replace_underscores name)));
          ("Value", CStr (format_percent2 (Result.value filter_data))) ] in
      row <- match Result.passes filter_data with
             | Some passes =>
                 let row :=
                   dict_setitem row "Passes Threshold"
                     (CStr (if passes then "✓" else "✗")) in
                 threshold <- threshold_item filter_data ;;
                 Ok (dict_setitem row "Threshold" (CStr threshold))
             | None => Ok row
             end ;;
      let row :=
        match Result.classification filter_data with
        | Some (Some text) => dict_setitem row "Classification" (CStr text)
        | Some None => dict_setitem row "Classification" CNone
        | None => row
        end in
      convert_loop rest (rows ++ [row])%list
  end.

Definition convert_results_to_df (results : Analysis) : exc (option DataFrame) :=
  match results with
  | AnalysisError _ => Ok None
  | Analysed r =>
      rows <- convert_loop (filters r) [] ;;
      Ok (Some (DataFrame_of_records rows))
  end.

(* ================================================================== *)
(** * Definitions used to state the properties *)
(* ================================================================== *)

(** The comparison a threshold stands for, as the specification words
    it: [compare(value, threshold, comparison)]. *)
Definition compare_spec (value threshold : float) (op : string) : bool :=
  if String.eqb op ">=" then (threshold <=? value)%float
  else if String.eqb op "<=" then (value <=? threshold)%float
  else if String.eqb op ">" then (threshold <? value)%float
  else (value <? threshold)%float.

(** The four comparison operators. *)
Definition comparison_operators : list string := [">="; "<="; ">"; "<"].

(** The distinct elements of a list, each at the place of its first
    occurrence. *)
Definition first_occurrences (l : list string) : list string :=
  fold_left add_key l [].

(** The identifiers of a request that the catalogue knows. *)
Definition catalogued (ids : list string) : list string :=
  filter (dict_contains AVAILABLE_FILTERS) ids.

(** The columns the [calculate] of each class selects from the frame. *)
Definition columns_read (c : filter_class) : list string :=
  match c with
  | FinancialFilter_class => []
  | GrossProfitRatioFilter => ["grossProfitRatio"]
  | SGARatioFilter => ["sellingGeneralAndAdministrativeExpenses"; "grossProfit"]
  | RDRatioFilter => ["researchAndDevelopmentExpenses"; "grossProfit"]
  | DepreciationRatioFilter => ["depreciationAndAmortization"; "grossProfit"]
  | InterestRatioFilter => ["interestExpense"; "operatingIncome"]
  | NetIncomeRatioFilter => ["netIncomeRatio"]
  | OperatingPLFilter => ["grossProfit"; "operatingExpenses"]
  | RevenueTrendFilter => ["revenue"]
  | OperatingMarginFilter => ["operatingIncome"; "revenue"]
  | SGAConsistencyFilter => ["sellingGeneralAndAdministrativeExpenses"; "grossProfit"]
  | IndustryAdjustedInterestFilter => ["interestExpense"; "operatingIncome"]
  end.

(** A float that is neither an infinity nor NaN. *)
Definition finite_float (x : float) : bool :=
  match Prim2SF x with
  | S754_zero _ | S754_finite _ _ _ => true
  | S754_infinity _ | S754_nan => false
  end.

(** The computation the ratio filters share: the mean of the quotient of
    two columns. *)
Definition ratio_mean (num den : string) (income_df : DataFrame) : exc float :=
  a <- getitem income_df num ;;
  b <- getitem income_df den ;;
  ratio <- series_div a b ;;
  series_mean ratio.

(** The classes whose [calculate] is such a mean, with their columns. *)
Definition ratio_columns (c : filter_class) : option (string * string) :=
  match c with
  | SGARatioFilter => Some ("sellingGeneralAndAdministrativeExpenses", "grossProfit")
  | RDRatioFilter => Some ("researchAndDevelopmentExpenses", "grossProfit")
  | DepreciationRatioFilter => Some ("depreciationAndAmortization", "grossProfit")
  | InterestRatioFilter => Some ("interestExpense", "operatingIncome")
  | OperatingMarginFilter => Some ("operatingIncome", "revenue")
  | IndustryAdjustedInterestFilter => Some ("interestExpense", "operatingIncome")
  | _ => None
  end.

(** The entries that count in the mean of the quotients of paired cells. *)
Definition counted (ps : list (cell * cell)) : exc (list float) :=
  q <- mapM (cell_op PrimFloat.div) ps ;;
  xs <- mapM as_float q ;;
  Ok (dropna xs).

(** A field that is not there for a label: the key is not in the row, or
    its value is [None] or the empty string. *)
Definition blank (field : option cell) : Prop :=
  field = None \/ field = Some CNone \/ field = Some (CStr EmptyString).

(** A frame has a column and the column holds no string. *)
Definition numeric_column (df : DataFrame) (col : string) : bool :=
  match dict_get (data df) col with
  | Some cells => negb (existsb is_str cells)
  | None => false
  end.

(** Every class instance, the one class outside the catalogue included. *)
Definition all_filters : list FinancialFilter :=
  OperatingPLFilter_init :: map snd AVAILABLE_FILTERS.

(** The filters whose threshold is the bound of their first range. *)
Definition threshold_is_first_bound : list FinancialFilter :=
  [ GrossProfitRatioFilter_init; SGARatioFilter_init;
    DepreciationRatioFilter_init; OperatingPLFilter_init ].

Definition first_band (self : FinancialFilter) : option string :=
  match classifications self with
  | c :: _ => Some (Classification.description c)
  | [] => None
  end.

(** The column whose mean a class returns. *)
Definition mean_column (c : filter_class) : option string :=
  match c with
  | GrossProfitRatioFilter => Some "grossProfitRatio"
  | NetIncomeRatioFilter => Some "netIncomeRatio"
  | _ => None
  end.

(** The first of the given columns that a frame does not have. *)
Definition first_missing (df : DataFrame) (cols : list string) : option string :=
  find (fun c => negb (dict_contains (data df) c)) cols.


(** The identifiers [analyze_company] works through. *)
Definition requested_ids (requested : option (list string)) : list string :=
  match requested with
  | None => DEFAULT_FILTERS
  | Some l => l
  end.

(** The table [analyze_company] builds from the provider's statement. *)
Definition analysis_frame (self : CompanyAnalyzer) (statement : list record)
  : DataFrame :=
  DataFrame_of_records (rev (firstn (n_quarters self) statement)).

(** A result that has ["passes"] has ["threshold"]. *)
Definition displayable (filter_data : Result.t) : Prop :=
  Result.passes filter_data = None
  \/ exists text, Result.threshold filter_data = Some text.

(** The cells of a filter result in the table of [convert_results_to_df],
    and a row that holds them. *)
Definition metric_cell (entry : string * Result.t) : cell :=
  CStr (title (replace_underscores (fst entry))).

Definition value_cell (entry : string * Result.t) : cell :=
  CStr (format_percent2 (Result.value (snd entry))).

Definition is_row_of (entry : string * Result.t) (row : record) : Prop :=
  dict_get row "Metric" = Some (metric_cell entry)
  /\ dict_get row "Value" = Some (value_cell entry).

(** ** Sample data *)

(** Some rendering of finite floats, for the examples below; none of
    them prints a finite float. *)
Definition sample_float_repr (x : float) : string := "0.0".

(** Four quarters with the gross-profit ratios 0.5, 0.45, 0.55, 0.40. *)
Definition four_quarters : list record :=
  [ [("calendarYear", CStr "2023"); ("period", CStr "Q1");
     ("grossProfitRatio", CNum 0.5%float)];
    [("calendarYear", CStr "2023"); ("period", CStr "Q2");
     ("grossProfitRatio", CNum 0.45%float)];
    [("calendarYear", CStr "2023"); ("period", CStr "Q3");
     ("grossProfitRatio", CNum 0.55%float)];
    [("calendarYear", CStr "2023"); ("period", CStr "Q4");
     ("grossProfitRatio", CNum 0.40%float)] ].

(** Two quarters, the first with a gross profit of zero. *)
Definition zero_gross_profit_quarters : list record :=
  [ [("calendarYear", CStr "2023"); ("period", CStr "Q1");
     ("sellingGeneralAndAdministrativeExpenses", CInt 5); ("grossProfit", CInt 0)];
    [("calendarYear", CStr "2023"); ("period", CStr "Q2");
     ("sellingGeneralAndAdministrativeExpenses", CInt 5); ("grossProfit", CInt 10)] ].

(** Two quarters, neither with the field [grossProfit]. *)
Definition quarters_without_gross_profit : list record :=
  [ [("calendarYear", CStr "2023"); ("period", CStr "Q1");
     ("sellingGeneralAndAdministrativeExpenses", CInt 5)];
    [("calendarYear", CStr "2023"); ("period", CStr "Q2");
     ("sellingGeneralAndAdministrativeExpenses", CInt 5)] ].

(** Two quarters, the first with a text where the ratio should be. *)
Definition one_bad_quarter : list record :=
  [ [("calendarYear", CStr "2023"); ("period", CStr "Q1");
     ("grossProfitRatio", CStr "n/a")];
    [("calendarYear", CStr "2023"); ("period", CStr "Q2");
     ("grossProfitRatio", CNum 0.5%float)] ].

(** One quarter with no financial field at all. *)
Definition quarter_without_ratio : list record :=
  [ [("calendarYear", CStr "2023"); ("period", CStr "Q1")] ].

(** Two quarters with interest expense and operating income. *)
Definition interest_quarters : list record :=
  [ [("calendarYear", CStr "2023"); ("period", CStr "Q1");
     ("interestExpense", CInt 1); ("operatingIncome", CInt 10)];
    [("calendarYear", CStr "2023"); ("period", CStr "Q2");
     ("interestExpense", CInt 3); ("operatingIncome", CInt 10)] ].

(** A filter whose comparison is none of the four operators. *)
Definition filter_with_unknown_comparison : FinancialFilter :=
  {| class_of := GrossProfitRatioFilter;
     name := "gross_profit_ratio";
     description := "Indicates pricing power and efficiency";
     threshold := Some 0.4%float;
     comparison := Some "==";
     threshold_text := None;
     guidelines := None;
     classifications := [];
     industry_thresholds := [] |}.

(** Two quarters, the second without the field [calendarYear]. *)
Definition quarters_missing_year : list record :=
  [ [("calendarYear", CStr "2023"); ("period", CStr "Q1");
     ("grossProfitRatio", CNum 0.5%float)];
    [("period", CStr "Q2"); ("grossProfitRatio", CNum 0.45%float)] ].

(** A provider that knows no company: empty profile, empty statement. *)
Definition no_data_provider : FinancialModelingPrepAPI :=
  {| get_company_profile := fun _ => [];
     get_income_statement := fun _ => JList [] |}.

(** A provider whose requests all fail: [get_income_statement] returns
    the empty dictionary. *)
Definition failed_request_provider : FinancialModelingPrepAPI :=
  {| get_company_profile := fun _ => [];
     get_income_statement := fun _ => JObject [] |}.

(** A provider with one company, delivered newest quarter first. *)
Definition sample_provider : FinancialModelingPrepAPI :=
  {| get_company_profile :=
       fun _ => [("companyName", CStr "Sample Corp"); ("sector", CStr "Technology")];
     get_income_statement := fun _ => JList (rev four_quarters) |}.

(** Two quarters whose gross-profit ratio is null: [None] and NaN. *)
Definition null_ratio_quarters : list record :=
  [ [("calendarYear", CStr "2023"); ("period", CStr "Q1");
     ("grossProfitRatio", CNone)];
    [("calendarYear", CStr "2023"); ("period", CStr "Q2");
     ("grossProfitRatio", CNum nan)] ].



(** Three quarters, the first with a revenue of zero. *)
Definition zero_revenue_quarters : list record :=
  [ [("calendarYear", CStr "2023"); ("period", CStr "Q1"); ("revenue", CInt 0)];
    [("calendarYear", CStr "2023"); ("period", CStr "Q2"); ("revenue", CInt 10)];
    [("calendarYear", CStr "2023"); ("period", CStr "Q3"); ("revenue", CInt 20)] ].

(** A provider that knows the company and has no quarter of it. *)
Definition empty_statement_provider : FinancialModelingPrepAPI :=
  {| get_company_profile :=
       fun _ => [("companyName", CStr "Sample Corp"); ("sector", CStr "Technology")];
     get_income_statement := fun _ => JList [] |}.

(* ================================================================== *)
(** * Properties *)
(* ================================================================== *)

(** ** Exceptions and dictionaries *)

Lemma mapM_length {A B : Type} (f : A -> exc B) (xs : list A) (ys : list B) :
  mapM f xs = Ok ys -> List.length ys = List.length xs.
Proof.
  revert ys; induction xs as [|x xs IH]; simpl; intros ys H.
  - injection H as <-; reflexivity.
  - destruct (f x) as [y|e]; simpl in H; [|discriminate].
    destruct (mapM f xs) as [ys'|e]; simpl in H; [|discriminate].
    injection H as <-; simpl; f_equal; apply IH; reflexivity.
Qed.

Lemma mapM_Forall2 {A B : Type} (f : A -> exc B) (xs : list A) (ys : list B) :
  mapM f xs = Ok ys -> Forall2 (fun x y => f x = Ok y) xs ys.
Proof.
  revert ys; induction xs as [|x xs IH]; simpl; intros ys H.
  - injection H as <-; constructor.
  - destruct (f x) as [y|e] eqn:Hx; simpl in H; [|discriminate].
    destruct (mapM f xs) as [ys'|e]; simpl in H; [|discriminate].
    injection H as <-; constructor; [assumption | apply IH; reflexivity].
Qed.

Lemma mapM_all_Ok {A B : Type} (f : A -> exc B) (xs : list A) :
  (forall x, In x xs -> exists y, f x = Ok y) -> exists ys, mapM f xs = Ok ys.
Proof.
  induction xs as [|x xs IH]; simpl; intros H.
  - eauto.
  - destruct (H x (or_introl eq_refl)) as [y ->].
    destruct IH as [ys ->]; [intros; apply H; auto|].
    simpl; eauto.
Qed.

Lemma mapM_Raise {A B : Type} (f : A -> exc B) (xs : list A) (e : exn) :
  mapM f xs = Raise e -> exists x, In x xs /\ f x = Raise e.
Proof.
  induction xs as [|x xs IH]; simpl; intros H; [discriminate|].
  destruct (f x) as [y|e'] eqn:Hx; simpl in H.
  - destruct (mapM f xs) as [ys|e'']; simpl in H; [discriminate|].
    injection H as ->. destruct IH as [x' [Hin Hx']]; eauto.
  - injection H as ->. eauto.
Qed.

Lemma mapM_In_Raise {A B : Type} (f : A -> exc B) (xs : list A) (x : A) (e : exn) :
  In x xs -> f x = Raise e -> exists e', mapM f xs = Raise e'.
Proof.
  induction xs as [|x' xs IH]; simpl; intros Hin Hx; [contradiction|].
  destruct (f x') as [y|e'] eqn:Hx'; simpl; [|eauto].
  destruct Hin as [->|Hin]; [congruence|].
  destruct (IH Hin Hx) as [e' ->]; simpl; eauto.
Qed.

Lemma eqb_sym_string (a b : string) : String.eqb a b = String.eqb b a.
Proof.
  destruct (String.eqb_spec a b) as [->|Hne].
  - symmetry; apply String.eqb_refl.
  - symmetry; apply String.eqb_neq; congruence.
Qed.

Lemma dict_keys_setitem {V : Type} (d : dict V) (k : string) (v : V) :
  dict_keys (dict_setitem d k v) = add_key (dict_keys d) k.
Proof.
  unfold add_key, dict_keys.
  induction d as [|[k' v'] d IH]; simpl; [reflexivity|].
  rewrite (eqb_sym_string k k').
  destruct (String.eqb k' k); simpl; [reflexivity|].
  rewrite IH. destruct (existsb (String.eqb k) (map fst d)); reflexivity.
Qed.

Lemma dict_contains_getitem {V : Type} (d : dict V) (k : string) :
  dict_contains d k = true -> exists v, dict_get d k = Some v /\ dict_getitem d k = Ok v.
Proof.
  unfold dict_contains, dict_getitem.
  destruct (dict_get d k) as [v|]; [eauto | discriminate].
Qed.

(** ** Thresholds *)

Lemma passes_threshold_compare (self : FinancialFilter) (value t : float) (c : string) :
  threshold self = Some t -> comparison self = Some c ->
  In c comparison_operators ->
  passes_threshold self value = compare_spec value t c.
Proof.
  intros Ht Hc Hin. unfold passes_threshold, compare_spec. rewrite Ht, Hc.
  simpl in Hin.
  destruct Hin as [<-|[<-|[<-|[<-|[]]]]]; reflexivity.
Qed.

(** C4: for a filter with a threshold and one of the four comparison
    operators, whose class keeps the [get_result] of the base class, the
    result of [get_result] on a table where [calculate] returns [value]
    has [passes] equal to the comparison of [value] with the threshold
    under that operator, and its threshold text is the explicit
    [threshold_text] when one is provided (a non-empty string), else the
    synthesized text: the comparison, a space and the threshold as a whole
    percentage. *)
Theorem get_result_passes_and_threshold_text
  (self : FinancialFilter) (income_df : DataFrame) (value t : float) (c : string) :
  class_of self <> IndustryAdjustedInterestFilter ->
  threshold self = Some t ->
  comparison self = Some c ->
  In c comparison_operators ->
  calculate self income_df = Ok value ->
  exists r,
    get_result self income_df = Ok r
    /\ Result.value r = value
    /\ Result.passes r = Some (compare_spec value t c)
    /\ (forall text, threshold_text self = Some text -> text <> EmptyString ->
        Result.threshold r = Some text)
    /\ (threshold_text self = None \/ threshold_text self = Some EmptyString ->
        Result.threshold r = Some (c ++ " " ++ format_percent0 t)).
Proof.
  intros Hcls Ht Hc Hin Hv.
  assert (Hbase : get_result self income_df = FinancialFilter_get_result self income_df).
  { unfold get_result. destruct (class_of self); try reflexivity. contradiction. }
  rewrite Hbase. unfold FinancialFilter_get_result. rewrite Hv. simpl.
  eexists. split; [reflexivity|]. simpl. rewrite Ht.
  repeat split.
  - f_equal. apply passes_threshold_compare; assumption.
  - intros text Htext Hne. rewrite Htext. simpl.
    destruct (String.eqb_spec text EmptyString); [contradiction | reflexivity].
  - intros [Hnone|Hempty].
    + rewrite Hnone, Hc. reflexivity.
    + rewrite Hempty, Hc. reflexivity.
Qed.

(** C10: [passes_threshold] returns [True] whenever the threshold is
    absent, the comparison is absent, or the comparison is a string other
    than the four operators; so a filter of the base class with a
    threshold and such a comparison reports [passes = True] on every table
    where [calculate] returns. *)
Theorem passes_threshold_fail_open (self : FinancialFilter) (value : float) :
  (threshold self = None
   \/ comparison self = None
   \/ exists c, comparison self = Some c /\ ~ In c comparison_operators) ->
  passes_threshold self value = true
  /\ (forall income_df t,
        threshold self = Some t ->
        calculate self income_df = Ok value ->
        exists r, FinancialFilter_get_result self income_df = Ok r
                  /\ Result.passes r = Some true).
Proof.
  intros H.
  assert (Hp : passes_threshold self value = true).
  { unfold passes_threshold.
    destruct (threshold self) as [t|]; [|reflexivity].
    destruct (comparison self) as [c|] eqn:Hc; [|reflexivity].
    destruct H as [H|[H|[c' [Hc' Hnot]]]]; try discriminate.
    injection Hc' as <-. simpl in Hnot.
    destruct (String.eqb_spec c ">=") as [->|_]; [exfalso; tauto|].
    destruct (String.eqb_spec c "<=") as [->|_]; [exfalso; tauto|].
    destruct (String.eqb_spec c ">") as [->|_]; [exfalso; tauto|].
    destruct (String.eqb_spec c "<") as [->|_]; [exfalso; tauto|].
    reflexivity. }
  split; [exact Hp|].
  intros income_df t Ht Hv. unfold FinancialFilter_get_result.
  rewrite Hv. simpl. eexists. split; [reflexivity|]. simpl.
  rewrite Ht, Hp. reflexivity.
Qed.

(** ** Classifications *)

Lemma contains_iff (c : Classification.t) (value : float) :
  Classification.contains c value = true <->
  (forall m, Classification.min_value c = Some m -> (value <? m)%float = false)
  /\ (forall m, Classification.max_value c = Some m -> (m <? value)%float = false).
Proof.
  unfold Classification.contains.
  destruct (Classification.min_value c) as [lo|], (Classification.max_value c) as [hi|].
  - destruct (value <? lo)%float eqn:Hlo, (hi <? value)%float eqn:Hhi; split;
      try discriminate; try reflexivity;
      try (intros [H1 H2]; specialize (H1 _ eq_refl); specialize (H2 _ eq_refl); congruence).
    intros _. split; intros m Hm; injection Hm as <-; assumption.
  - destruct (value <? lo)%float eqn:Hlo; split;
      try discriminate; try reflexivity;
      try (intros [H1 H2]; specialize (H1 _ eq_refl); congruence).
    intros _. split; intros m Hm; [injection Hm as <-; assumption | discriminate].
  - destruct (hi <? value)%float eqn:Hhi; split;
      try discriminate; try reflexivity;
      try (intros [H1 H2]; specialize (H2 _ eq_refl); congruence).
    intros _. split; intros m Hm; [discriminate | injection Hm as <-; assumption].
  - split; [|reflexivity]. intros _. split; intros m Hm; discriminate.
Qed.

Lemma first_containing_Some (cs : list Classification.t) (value : float) (d : string) :
  first_containing cs value = Some d <->
  exists before c after,
    cs = (before ++ c :: after)%list
    /\ Forall (fun c' => Classification.contains c' value = false) before
    /\ Classification.contains c value = true
    /\ Classification.description c = d.
Proof.
  induction cs as [|c0 cs IH]; simpl.
  - split; [discriminate|]. intros (before & c & after & H & _).
    destruct before; discriminate.
  - destruct (Classification.contains c0 value) eqn:Hc0.
    + split.
      * intros H. injection H as <-. exists [], c0, cs. repeat split; auto.
      * intros (before & c & after & Heq & Hall & Hc & Hd).
        destruct before as [|b before]; simpl in Heq; injection Heq as -> ->.
        -- congruence.
        -- inversion Hall; congruence.
    + rewrite IH. split.
      * intros (before & c & after & -> & Hall & Hc & Hd).
        exists (c0 :: before), c, after. repeat split; auto.
      * intros (before & c & after & Heq & Hall & Hc & Hd).
        destruct before as [|b before]; simpl in Heq; injection Heq as -> ->.
        -- congruence.
        -- inversion Hall; subst. exists before, c, after. repeat split; auto.
Qed.

Lemma first_containing_None (cs : list Classification.t) (value : float) :
  first_containing cs value = None <->
  Forall (fun c => Classification.contains c value = false) cs.
Proof.
  induction cs as [|c0 cs IH]; simpl.
  - split; auto.
  - destruct (Classification.contains c0 value) eqn:Hc0.
    + split; [discriminate|]. intros H; inversion H; congruence.
    + rewrite IH. split; [auto|]. intros H; inversion H; assumption.
Qed.

(** C5: for a filter with a non-empty classification list, whose class
    keeps the [get_result] of the base class, the result on a table where
    [calculate] returns [value] carries the description of the first range
    of the list that contains [value], or Python's [None] when no range
    does; and a range contains [value] exactly when [value] is not less
    than its [min_value], if it has one, and not greater than its
    [max_value], if it has one. *)
Theorem get_result_classification
  (self : FinancialFilter) (income_df : DataFrame) (value : float) :
  class_of self <> IndustryAdjustedInterestFilter ->
  classifications self <> [] ->
  calculate self income_df = Ok value ->
  exists r,
    get_result self income_df = Ok r
    /\ Result.classification r = Some (get_classification self value)
    /\ (forall d,
          get_classification self value = Some d <->
          exists before c after,
            classifications self = (before ++ c :: after)%list
            /\ Forall (fun c' => Classification.contains c' value = false) before
            /\ Classification.contains c value = true
            /\ Classification.description c = d)
    /\ (get_classification self value = None <->
        Forall (fun c => Classification.contains c value = false) (classifications self))
    /\ (forall c,
          Classification.contains c value = true <->
          (forall m, Classification.min_value c = Some m -> (value <? m)%float = false)
          /\ (forall m, Classification.max_value c = Some m -> (m <? value)%float = false)).
Proof.
  intros Hcls Hne Hv.
  assert (Hbase : get_result self income_df = FinancialFilter_get_result self income_df).
  { unfold get_result. destruct (class_of self); try reflexivity. contradiction. }
  rewrite Hbase. unfold FinancialFilter_get_result. rewrite Hv. simpl.
  eexists. split; [reflexivity|]. simpl.
  split; [destruct (classifications self); [contradiction | reflexivity]|].
  split; [intros d; apply first_containing_Some|].
  split; [apply first_containing_None|].
  intros c; apply contains_iff.
Qed.

(** ** The gross-profit filter on four quarters *)

(** C9: on a table whose [grossProfitRatio] column is
    [0.5, 0.45, 0.55, 0.40], [calculate] of the gross-profit filter
    returns 0.475; the filter has threshold 0.4 and comparison [>=], its
    result has [passes = True] and the classification
    "Durable competitive advantage". *)
Theorem gross_profit_four_quarters (income_df : DataFrame) :
  getitem income_df "grossProfitRatio"
  = Ok [CNum 0.5%float; CNum 0.45%float; CNum 0.55%float; CNum 0.40%float] ->
  calculate GrossProfitRatioFilter_init income_df = Ok 0.475%float
  /\ threshold GrossProfitRatioFilter_init = Some 0.4%float
  /\ comparison GrossProfitRatioFilter_init = Some ">="
  /\ exists r,
       get_result GrossProfitRatioFilter_init income_df = Ok r
       /\ Result.value r = 0.475%float
       /\ Result.passes r = Some true
       /\ Result.classification r = Some (Some "Durable competitive advantage").
Proof.
  intros Hcol.
  assert (Hv : calculate GrossProfitRatioFilter_init income_df = Ok 0.475%float).
  { unfold calculate; simpl. unfold GrossProfitRatioFilter_calculate.
    rewrite Hcol. reflexivity. }
  split; [exact Hv|]. split; [reflexivity|]. split; [reflexivity|].
  unfold get_result; simpl. unfold FinancialFilter_get_result. rewrite Hv.
  eexists. split; [reflexivity|]. repeat split.
Qed.

(** ** The industry-adjusted interest filter *)

(** The entries [analyze_loop] adds do not depend on the company name and
    the sector the result starts with. *)
Lemma analyze_loop_profile_irrelevant (float_repr : float -> string)
  (income_df : DataFrame) (ids : list string) (r1 r2 r1' r2' : AnalysisResult) :
  filters r1 = filters r2 ->
  quarterly_data r1 = quarterly_data r2 ->
  analyze_loop float_repr income_df ids r1 = Ok r1' ->
  analyze_loop float_repr income_df ids r2 = Ok r2' ->
  filters r1' = filters r2' /\ quarterly_data r1' = quarterly_data r2'.
Proof.
  revert r1 r2. induction ids as [|id ids IH]; simpl; intros r1 r2 Hf Hq H1 H2.
  - injection H1 as <-. injection H2 as <-. auto.
  - destruct (dict_contains AVAILABLE_FILTERS id); simpl in H1, H2.
    + destruct (dict_getitem AVAILABLE_FILTERS id) as [f|e]; simpl in H1, H2;
        [|discriminate].
      destruct (get_result f income_df) as [fr|e]; simpl in H1, H2; [|discriminate].
      destruct (get_quarterly_data float_repr f income_df) as [s|];
        simpl in H1, H2; refine (IH _ _ _ _ H1 H2); simpl; congruence.
    + refine (IH _ _ Hf Hq H1 H2).
Qed.

(** C8: the catalogue entry "industry_interest" is the industry-adjusted
    interest filter; for every instance of that class with the lookup
    table its [__init__] sets, whatever threshold, comparison, threshold
    text and classifications the instance carries, [get_result] compares
    the value with the "Default" entry 0.20 under [<=] and shows the
    text "≤ 20%"; and the filter results of an analysis are the same for
    two providers that deliver the same income statement, whatever profile
    (and so whatever sector) each of them delivers. *)
Theorem industry_interest_default_threshold
  (self : FinancialFilter) (income_df : DataFrame) (value : float) :
  class_of self = IndustryAdjustedInterestFilter ->
  industry_thresholds self = industry_thresholds IndustryAdjustedInterestFilter_init ->
  calculate self income_df = Ok value ->
  dict_get AVAILABLE_FILTERS "industry_interest" = Some IndustryAdjustedInterestFilter_init
  /\ dict_get (industry_thresholds self) "Default" = Some 0.20%float
  /\ get_result self income_df
     = Ok {| Result.value := value;
             Result.description := description self;
             Result.passes := Some (value <=? 0.20)%float;
             Result.threshold := Some "≤ 20%";
             Result.classification := None;
             Result.guidelines := None |}
  /\ (forall float_repr a1 a2 company requested r1 r2,
        n_quarters a1 = n_quarters a2 ->
        get_income_statement (api a1) company = get_income_statement (api a2) company ->
        analyze_company float_repr a1 company requested = Ok (Analysed r1) ->
        analyze_company float_repr a2 company requested = Ok (Analysed r2) ->
        filters r1 = filters r2).
Proof.
  intros Hcls Htab Hv.
  split; [reflexivity|]. split; [rewrite Htab; reflexivity|].
  split.
  - unfold get_result. rewrite Hcls.
    unfold IndustryAdjustedInterestFilter_get_result. rewrite Hv, Htab. reflexivity.
  - intros float_repr a1 a2 company requested r1 r2 Hn Hst H1 H2.
    unfold analyze_company, get_company_data in H1, H2.
    rewrite <- Hn, <- Hst in H2.
    destruct (slice_to (n_quarters a1) (get_income_statement (api a1) company))
      as [first|e]; simpl in H1, H2; [|discriminate].
    destruct (dict_getitem (get_company_profile (api a1) company) "companyName");
      simpl in H1; [|discriminate].
    destruct (dict_getitem (get_company_profile (api a1) company) "sector");
      simpl in H1; [|discriminate].
    destruct (dict_getitem (get_company_profile (api a2) company) "companyName");
      simpl in H2; [|discriminate].
    destruct (dict_getitem (get_company_profile (api a2) company) "sector");
      simpl in H2; [|discriminate].
    match type of H1 with
    | bind ?m _ = _ => destruct m as [x1|e1] eqn:E1; simpl in H1; [|discriminate]
    end.
    match type of H2 with
    | bind ?m _ = _ => destruct m as [x2|e2] eqn:E2; simpl in H2; [|discriminate]
    end.
    injection H1 as <-. injection H2 as <-.
    eapply analyze_loop_profile_irrelevant; [| |exact E1|exact E2]; reflexivity.
Qed.

(** ** The missing company *)

(** C2: with a provider that returns an empty profile and an empty
    statement, [analyze_company] raises [KeyError] on "companyName"; with
    a provider whose statement request failed it raises [TypeError];
    and no call of [analyze_company] ever returns the "not found"
    dictionary, since [get_company_data] always returns a dictionary with
    two keys. *)
Theorem analyze_company_no_data_raises :
  (forall float_repr company requested,
      analyze_company float_repr (CompanyAnalyzer_init no_data_provider)
        company requested
      = Raise (KeyError "companyName"))
  /\ (forall float_repr company requested,
        analyze_company float_repr (CompanyAnalyzer_init failed_request_provider)
          company requested
        = Raise TypeError)
  /\ (forall float_repr self company requested error,
        analyze_company float_repr self company requested
        <> Ok (AnalysisError error)).
Proof.
  split; [reflexivity|]. split; [reflexivity|].
  intros float_repr self company requested error.
  unfold analyze_company, get_company_data.
  destruct (slice_to (n_quarters self) (get_income_statement (api self) company));
    simpl; [|discriminate].
  destruct (dict_getitem (get_company_profile (api self) company) "companyName");
    simpl; [|discriminate].
  destruct (dict_getitem (get_company_profile (api self) company) "sector");
    simpl; [|discriminate].
  match goal with
  | |- bind ?m _ <> _ => destruct m; simpl; discriminate
  end.
Qed.

(** ** Division by a zero or missing denominator *)

(** *** IEEE-754 arithmetic *)

Lemma add_not_finite_l (a b : float) :
  finite_float a = false -> finite_float (a + b) = false.
Proof.
  unfold finite_float. rewrite FloatAxioms.add_spec. unfold SF64add, SFadd.
  destruct (Prim2SF a) as [sa|sa| |sa ma ea]; try discriminate; intros _.
  - destruct (Prim2SF b) as [sb|sb| |sb mb eb]; try reflexivity.
    destruct sa, sb; reflexivity.
  - reflexivity.
Qed.

Lemma add_not_finite_r (a b : float) :
  finite_float b = false -> finite_float (a + b) = false.
Proof.
  unfold finite_float. rewrite FloatAxioms.add_spec. unfold SF64add, SFadd.
  destruct (Prim2SF b) as [sb|sb| |sb mb eb]; try discriminate; intros _.
  - destruct (Prim2SF a) as [sa|sa| |sa ma ea]; try reflexivity.
    destruct sa, sb; reflexivity.
  - destruct (Prim2SF a) as [sa|sa| |sa ma ea]; reflexivity.
Qed.

Lemma div_not_finite_l (a b : float) :
  finite_float a = false -> finite_float (a / b) = false.
Proof.
  unfold finite_float. rewrite FloatAxioms.div_spec. unfold SF64div, SFdiv.
  destruct (Prim2SF a) as [sa|sa| |sa ma ea]; try discriminate; intros _.
  - destruct (Prim2SF b) as [sb|sb| |sb mb eb]; reflexivity.
  - reflexivity.
Qed.

Lemma div_by_zero (x y : float) (s : bool) (m : positive) (e : Z) (s' : bool) :
  Prim2SF x = S754_finite s m e -> Prim2SF y = S754_zero s' ->
  Prim2SF (x / y) = S754_infinity (xorb s s').
Proof.
  intros Hx Hy. rewrite FloatAxioms.div_spec, Hx, Hy. reflexivity.
Qed.

Lemma is_nan_false (x : float) :
  Prim2SF x <> S754_nan -> is_nan x = false.
Proof.
  unfold is_nan. rewrite FloatAxioms.eqb_spec. unfold SFeqb, SFcompare.
  destruct (Prim2SF x) as [s|s| |s m e]; intros H.
  - reflexivity.
  - destruct s; reflexivity.
  - contradiction.
  - rewrite Z.compare_refl.
    assert (Hm : PosDef.Pos.compare_cont Eq m m = Eq) by apply Pos.compare_cont_refl.
    destruct s; rewrite Hm; reflexivity.
Qed.

Lemma fold_add_not_finite_acc (xs : list float) (acc : float) :
  finite_float acc = false -> finite_float (fold_left PrimFloat.add xs acc) = false.
Proof.
  revert acc; induction xs as [|x xs IH]; intros acc H; simpl; [exact H|].
  apply IH, add_not_finite_l, H.
Qed.

Lemma fsum_not_finite (xs : list float) (x : float) :
  In x xs -> finite_float x = false -> finite_float (fsum xs) = false.
Proof.
  unfold fsum. generalize 0%float as acc.
  induction xs as [|y xs IH]; intros acc Hin Hx; simpl; [contradiction|].
  destruct Hin as [->|Hin].
  - apply fold_add_not_finite_acc, add_not_finite_r, Hx.
  - apply IH; assumption.
Qed.

Lemma nanmean_not_finite (xs : list float) (x : float) :
  In x xs -> is_nan x = false -> finite_float x = false ->
  finite_float (nanmean xs) = false.
Proof.
  intros Hin Hnan Hx. unfold nanmean.
  assert (Hd : In x (dropna xs)).
  { unfold dropna. apply filter_In. split; [assumption|]. rewrite Hnan. reflexivity. }
  destruct (dropna xs) as [|y ys] eqn:E; [contradiction|].
  apply div_not_finite_l. apply (@fsum_not_finite _ _ Hd Hx).
Qed.

Lemma mapM_nth_error {A B : Type} (f : A -> exc B) (xs : list A) (ys : list B)
  (i : nat) (x : A) :
  mapM f xs = Ok ys -> nth_error xs i = Some x ->
  exists y, nth_error ys i = Some y /\ f x = Ok y.
Proof.
  revert ys i. induction xs as [|x0 xs IH]; intros ys i Hm Hi.
  - destruct i; discriminate.
  - simpl in Hm. destruct (f x0) as [y0|e] eqn:Hx0; simpl in Hm; [|discriminate].
    destruct (mapM f xs) as [ys'|e] eqn:Hxs; simpl in Hm; [|discriminate].
    injection Hm as <-. destruct i as [|i]; simpl in *.
    + injection Hi as <-. eauto.
    + apply (IH ys' i eq_refl Hi).
Qed.

Lemma nth_error_combine {A B : Type} (a : list A) (b : list B) (i : nat) (x : A) (y : B) :
  nth_error a i = Some x -> nth_error b i = Some y ->
  nth_error (combine a b) i = Some (x, y).
Proof.
  revert b i. induction a as [|x0 a IH]; intros [|y0 b] [|i] Ha Hb; simpl in *;
    try discriminate.
  - congruence.
  - apply IH; assumption.
Qed.

Lemma as_float_not_null (c : cell) (x : float) :
  as_float c = Ok x -> Prim2SF x <> S754_nan -> is_null c = false.
Proof.
  destruct c as [z|n|s|]; simpl; intros H Hx; try reflexivity; try discriminate.
  - injection H as ->. apply is_nan_false, Hx.
  - injection H as <-. exfalso. apply Hx. reflexivity.
Qed.

(** A quarter with a zero denominator and a finite, non-zero numerator
    makes the mean of the quotients an infinity or NaN. *)
Lemma ratio_mean_zero_denominator (num den : string) (income_df : DataFrame)
  (a b : Series) (i : nat) (ca cb : cell) (x y : float)
  (s : bool) (m : positive) (e : Z) (s' : bool) (v : float) :
  getitem income_df num = Ok a ->
  getitem income_df den = Ok b ->
  nth_error a i = Some ca -> nth_error b i = Some cb ->
  as_float ca = Ok x -> Prim2SF x = S754_finite s m e ->
  as_float cb = Ok y -> Prim2SF y = S754_zero s' ->
  ratio_mean num den income_df = Ok v ->
  finite_float v = false.
Proof.
  intros Ha Hb Hia Hib Hx Hfx Hy Hzy Hv.
  unfold ratio_mean in Hv. rewrite Ha, Hb in Hv. cbn [bind] in Hv.
  unfold series_div, series_op in Hv.
  destruct (mapM (cell_op PrimFloat.div) (combine a b)) as [q|err] eqn:Hq;
    cbn [bind] in Hv; [|discriminate].
  destruct (@mapM_nth_error _ _ _ _ _ i _ Hq (@nth_error_combine _ _ _ _ _ _ _ Hia Hib))
    as (c & Hic & Hc).
  assert (Hcq : c = CNum (x / y)%float).
  { unfold cell_op in Hc.
    rewrite (@as_float_not_null _ _ Hx), (@as_float_not_null _ _ Hy) in Hc
      by (rewrite ?Hfx, ?Hzy; discriminate).
    rewrite Hx, Hy in Hc. simpl in Hc. congruence. }
  subst c. unfold series_mean in Hv.
  destruct (mapM as_float q) as [xs|err] eqn:Hxs; cbn [bind] in Hv; [|discriminate].
  injection Hv as <-.
  destruct (@mapM_nth_error _ _ _ _ _ i _ Hxs Hic) as (z & Hiz & Hz).
  simpl in Hz. injection Hz as <-.
  pose proof (@div_by_zero _ _ _ _ _ _ Hfx Hzy) as Hinf.
  apply (@nanmean_not_finite xs (x / y)%float).
  - eapply nth_error_In; eassumption.
  - apply is_nan_false. rewrite Hinf. discriminate.
  - unfold finite_float. rewrite Hinf. reflexivity.
Qed.

Lemma calculate_ratio_mean (self : FinancialFilter) (num den : string)
  (income_df : DataFrame) :
  ratio_columns (class_of self) = Some (num, den) ->
  calculate self income_df = ratio_mean num den income_df.
Proof.
  unfold calculate, ratio_columns.
  destruct (class_of self); intros H; try discriminate; injection H as <- <-;
    reflexivity.
Qed.

(** For a class of ratio filters, a quarter with a zero denominator and a
    finite, non-zero numerator makes [calculate], when it returns, return
    an infinity or NaN. *)
Lemma ratio_filter_zero_denominator (self : FinancialFilter) (num den : string)
  (income_df : DataFrame) (a b : Series) (i : nat) (ca cb : cell) (x y : float)
  (s : bool) (m : positive) (e : Z) (s' : bool) (v : float) :
  ratio_columns (class_of self) = Some (num, den) ->
  getitem income_df num = Ok a ->
  getitem income_df den = Ok b ->
  nth_error a i = Some ca -> nth_error b i = Some cb ->
  as_float ca = Ok x -> Prim2SF x = S754_finite s m e ->
  as_float cb = Ok y -> Prim2SF y = S754_zero s' ->
  calculate self income_df = Ok v ->
  finite_float v = false.
Proof.
  intros Hcols Ha Hb Hia Hib Hx Hfx Hy Hzy Hv.
  rewrite (calculate_ratio_mean _ _ Hcols) in Hv.
  exact (@ratio_mean_zero_denominator num den income_df a b i ca cb x y s m e s' v
           Ha Hb Hia Hib Hx Hfx Hy Hzy Hv).
Qed.

(** *** Null denominators *)

Lemma series_mean_counted (ps : list (cell * cell)) :
  (q <- mapM (cell_op PrimFloat.div) ps ;; series_mean q)
  = (ys <- counted ps ;;
     Ok match ys with
        | [] => nan
        | _ :: _ => (fsum ys / float_of_nat (List.length ys))%float
        end).
Proof.
  unfold counted, series_mean, nanmean.
  destruct (mapM (cell_op PrimFloat.div) ps) as [q|e]; simpl; [|reflexivity].
  destruct (mapM as_float q) as [xs|e]; reflexivity.
Qed.

Lemma cell_op_as_float (op : float -> float -> float) (p : cell * cell) (c : cell) :
  cell_op op p = Ok c -> exists z, c = CNum z.
Proof.
  destruct p as [a b]. unfold cell_op.
  destruct (is_null a || is_null b); [intros H; injection H as <-; eauto|].
  destruct (as_float a); simpl; [|discriminate].
  destruct (as_float b); simpl; [|discriminate].
  intros H; injection H as <-; eauto.
Qed.

Lemma counted_cons (p : cell * cell) (ps : list (cell * cell)) :
  counted (p :: ps)
  = (c <- cell_op PrimFloat.div p ;;
     x <- as_float c ;;
     ys <- counted ps ;;
     Ok (if is_nan x then ys else x :: ys)).
Proof.
  unfold counted. simpl.
  destruct (cell_op PrimFloat.div p) as [c|e] eqn:Hc; simpl; [|reflexivity].
  destruct (cell_op_as_float _ _ Hc) as [z ->]. simpl.
  destruct (mapM (cell_op PrimFloat.div) ps) as [q|e]; simpl; [|reflexivity].
  destruct (mapM as_float q) as [xs|e]; simpl; [|reflexivity].
  destruct (is_nan z); reflexivity.
Qed.

Lemma counted_skips_null_denominator (ps : list (cell * cell)) :
  counted (filter (fun p => negb (is_null (snd p))) ps) = counted ps.
Proof.
  induction ps as [|[a b] ps IH]; [reflexivity|].
  cbn [filter snd]. destruct (is_null b) eqn:Hb; cbn [negb].
  - rewrite IH, counted_cons. unfold cell_op. rewrite Hb, orb_true_r.
    cbn [bind as_float].
    destruct (counted ps); reflexivity.
  - rewrite !counted_cons, IH. reflexivity.
Qed.

(** The mean of the quotients over a table is the mean over the table
    without the quarters whose denominator is null (missing, [None] or
    NaN). *)
Lemma ratio_mean_skips_null_denominator (num den : string)
  (income_df kept_df : DataFrame) (a b a' b' : Series) :
  getitem income_df num = Ok a -> getitem income_df den = Ok b ->
  getitem kept_df num = Ok a' -> getitem kept_df den = Ok b' ->
  combine a' b' = filter (fun p => negb (is_null (snd p))) (combine a b) ->
  ratio_mean num den income_df = ratio_mean num den kept_df.
Proof.
  intros Ha Hb Ha' Hb' Hkept. unfold ratio_mean.
  rewrite Ha, Hb, Ha', Hb'. cbn [bind]. unfold series_div, series_op.
  rewrite !series_mean_counted, Hkept, counted_skips_null_denominator.
  reflexivity.
Qed.

(** *** The SG&A ratio filter at a zero gross profit *)

(** C1: the SG&A ratio filter on two quarters with expenses 5 and gross
    profits 0 and 10 returns infinity (the quarter with the zero
    denominator contributes 5/0, not 0, which would give 0.25); its
    quarterly series has infinity at that quarter; on a table where no
    quarter has the field [grossProfit] it raises [KeyError]; and for
    every ratio filter and every table, a quarter with a zero denominator
    and a finite, non-zero numerator makes [calculate], when it returns,
    return an infinity or NaN. *)
Theorem sga_ratio_zero_gross_profit :
  calculate SGARatioFilter_init (DataFrame_of_records zero_gross_profit_quarters)
  = Ok infinity
  /\ get_quarterly_data sample_float_repr SGARatioFilter_init
       (DataFrame_of_records zero_gross_profit_quarters)
     = Some [(Some "2023-Q1", infinity); (Some "2023-Q2", 0.5%float)]
  /\ calculate SGARatioFilter_init (DataFrame_of_records quarters_without_gross_profit)
     = Raise (KeyError "grossProfit")
  /\ (forall (self : FinancialFilter) (num den : string) (income_df : DataFrame)
             (a b : Series) (i : nat) (ca cb : cell) (x y : float)
             (s : bool) (m : positive) (e : Z) (s' : bool) (v : float),
        ratio_columns (class_of self) = Some (num, den) ->
        getitem income_df num = Ok a ->
        getitem income_df den = Ok b ->
        nth_error a i = Some ca -> nth_error b i = Some cb ->
        as_float ca = Ok x -> Prim2SF x = S754_finite s m e ->
        as_float cb = Ok y -> Prim2SF y = S754_zero s' ->
        calculate self income_df = Ok v ->
        finite_float v = false).
Proof.
  split; [reflexivity|]. split; [reflexivity|]. split; [reflexivity|].
  intros. eapply ratio_filter_zero_denominator; eassumption.
Qed.

(** ** Quarterly series *)

(** The loop of [get_quarterly_data] computes the values quarter by
    quarter and stops at the first exception. *)
Lemma quarterly_loop_mapM (float_repr : float -> string) (self : FinancialFilter)
  (rows : list (dict cell)) (values : list float) (quarters : list (option string)) :
  quarterly_loop float_repr self rows values quarters
  = (vs <- mapM (fun quarter => calculate self (DataFrame_of_row quarter)) rows ;;
     Ok ((values ++ vs)%list, (quarters ++ map (quarter_label float_repr) rows)%list)).
Proof.
  revert values quarters.
  induction rows as [|quarter rows IH]; intros values quarters; simpl.
  - rewrite !app_nil_r. reflexivity.
  - destruct (calculate self (DataFrame_of_row quarter)) as [v|e]; simpl;
      [|reflexivity].
    rewrite IH.
    destruct (mapM (fun q => calculate self (DataFrame_of_row q)) rows) as [vs|e];
      simpl; [|reflexivity].
    rewrite <- !app_assoc. reflexivity.
Qed.

Lemma get_quarterly_data_mapM (float_repr : float -> string) (self : FinancialFilter)
  (income_df : DataFrame) :
  get_quarterly_data float_repr self income_df
  = match mapM (fun quarter => calculate self (DataFrame_of_row quarter))
            (iterrows income_df) with
    | Ok vs => Some (combine (map (quarter_label float_repr) (iterrows income_df)) vs)
    | Raise _ => None
    end.
Proof.
  unfold get_quarterly_data. rewrite quarterly_loop_mapM.
  destruct (mapM _ (iterrows income_df)); reflexivity.
Qed.

Lemma iterrows_length (income_df : DataFrame) :
  List.length (iterrows income_df) = nrows income_df.
Proof.
  unfold iterrows. rewrite length_map, length_seq. reflexivity.
Qed.

Lemma Forall2_combine_map {A B C : Type} (P : A -> C -> Prop) (g : A -> B)
  (xs : list A) (ys : list C) :
  Forall2 P xs ys ->
  Forall2 (fun x p => P x (snd p) /\ fst p = g x) xs (combine (map g xs) ys).
Proof.
  induction 1; simpl; constructor; auto.
Qed.

Lemma map_fst_combine_same_length {A B : Type} (l : list A) (vs : list B) :
  List.length l = List.length vs -> map fst (combine l vs) = l.
Proof.
  revert vs; induction l as [|x l IH]; intros [|v vs] Hl; simpl in *;
    try discriminate; try reflexivity.
  f_equal. apply IH. congruence.
Qed.

(** A series, when there is one, has one point per row of the frame. *)
Lemma get_quarterly_data_length (float_repr : float -> string)
  (self : FinancialFilter) (income_df : DataFrame) (s : LabelledSeries) :
  get_quarterly_data float_repr self income_df = Some s ->
  List.length s = nrows income_df
  /\ map fst s = map (quarter_label float_repr) (iterrows income_df).
Proof.
  rewrite get_quarterly_data_mapM.
  destruct (mapM _ (iterrows income_df)) as [vs|e] eqn:Hm; [|discriminate].
  intros H; injection H as <-.
  apply mapM_length in Hm.
  split.
  - rewrite length_combine, length_map, Hm, Nat.min_id. apply iterrows_length.
  - apply map_fst_combine_same_length. rewrite length_map. auto.
Qed.

(** C3 (as the code has it): [get_quarterly_data] returns no series
    exactly when [calculate] raises on the one-quarter table of some
    quarter; when it returns a series, every quarter was computed without
    an exception, and the series pairs each quarter's label with that
    quarter's value. *)
Theorem quarterly_series_all_or_nothing (float_repr : float -> string)
  (self : FinancialFilter) (income_df : DataFrame) :
  (get_quarterly_data float_repr self income_df = None <->
   exists quarter e,
     In quarter (iterrows income_df)
     /\ calculate self (DataFrame_of_row quarter) = Raise e)
  /\ (forall s,
        get_quarterly_data float_repr self income_df = Some s ->
        Forall2 (fun quarter point =>
                   calculate self (DataFrame_of_row quarter) = Ok (snd point)
                   /\ fst point = quarter_label float_repr quarter)
          (iterrows income_df) s).
Proof.
  rewrite get_quarterly_data_mapM.
  destruct (mapM (fun quarter => calculate self (DataFrame_of_row quarter))
              (iterrows income_df)) as [vs|e] eqn:Hm.
  - split.
    + split; [discriminate|].
      intros (quarter & e & Hin & Hq).
      destruct (@mapM_In_Raise _ _
                  (fun quarter => calculate self (DataFrame_of_row quarter))
                  _ _ _ Hin Hq) as [e' He'].
      congruence.
    + intros s H; injection H as <-.
      apply Forall2_combine_map with (P := fun quarter v =>
        calculate self (DataFrame_of_row quarter) = Ok v).
      apply mapM_Forall2 in Hm. exact Hm.
  - split.
    + split; [|reflexivity]. intros _.
      destruct (mapM_Raise _ _ Hm) as (quarter & Hin & Hq). eauto.
    + discriminate.
Qed.

(** C3, the claim as stated fails: of the two quarters of
    [one_bad_quarter] only the first makes [calculate] raise, the second
    has the value 0.5, and yet no series is returned. *)
Lemma quarterly_series_one_bad_quarter_aborts :
  map (fun quarter =>
         calculate GrossProfitRatioFilter_init (DataFrame_of_row quarter))
      (iterrows (DataFrame_of_records one_bad_quarter))
  = [Raise TypeError; Ok 0.5%float]
  /\ get_quarterly_data sample_float_repr GrossProfitRatioFilter_init
       (DataFrame_of_records one_bad_quarter)
     = None.
Proof.
  split; reflexivity.
Qed.

(** *** Rows on which [calculate] returns *)

Lemma dict_get_map_values {V W : Type} (h : V -> W) (d : dict V) (k : string) :
  dict_get (map (fun kc => (fst kc, h (snd kc))) d) k = option_map h (dict_get d k).
Proof.
  induction d as [|[k' v] d IH]; simpl; [reflexivity|].
  destruct (String.eqb k' k); [reflexivity | exact IH].
Qed.

Lemma is_str_cast (t : dtype) (c : cell) : is_str (cast t c) = is_str c.
Proof. destruct t, c; reflexivity. Qed.

Lemma nth_not_str (cells : Series) (i : nat) :
  existsb is_str cells = false -> is_str (nth i cells (CNum nan)) = false.
Proof.
  revert i; induction cells as [|c cells IH]; intros [|i] H; simpl in *;
    try reflexivity; apply orb_false_iff in H; destruct H; auto.
Qed.

Lemma row_at_numeric (income_df : DataFrame) (i : nat) (col : string) :
  numeric_column income_df col = true ->
  exists c, dict_get (row_at income_df i) col = Some c /\ is_str c = false.
Proof.
  unfold numeric_column, row_at. intros H.
  rewrite (dict_get_map_values
             (fun cells => cast (row_dtype income_df) (nth i cells (CNum nan)))).
  unfold Series in *.
  destruct (@dict_get (list cell) (data income_df) col) as [cells|]; [|discriminate].
  simpl. eexists; split; [reflexivity|].
  rewrite is_str_cast. apply nth_not_str.
  destruct (existsb is_str cells); [discriminate | reflexivity].
Qed.

Lemma getitem_row (row : dict cell) (col : string) (c : cell) :
  dict_get row col = Some c -> getitem (DataFrame_of_row row) col = Ok [c].
Proof.
  intros H. unfold getitem, dict_getitem, DataFrame_of_row, Series. cbn [data].
  rewrite (dict_get_map_values (fun c => [c])), H. reflexivity.
Qed.

Lemma as_float_not_str (c : cell) :
  is_str c = false -> exists x, as_float c = Ok x.
Proof. destruct c; simpl; intros H; try discriminate; eauto. Qed.

Lemma cell_op_not_str (op : float -> float -> float) (a b : cell) :
  is_str a = false -> is_str b = false -> exists z, cell_op op (a, b) = Ok (CNum z).
Proof.
  intros Ha Hb. unfold cell_op.
  destruct (is_null a || is_null b); [eauto|].
  destruct (as_float_not_str _ Ha) as [x ->], (as_float_not_str _ Hb) as [y ->].
  simpl; eauto.
Qed.

Lemma series_op_row (op : float -> float -> float) (a b : cell) :
  is_str a = false -> is_str b = false ->
  exists z, series_op op [a] [b] = Ok [CNum z].
Proof.
  intros Ha Hb. unfold series_op; simpl.
  destruct (cell_op_not_str op _ _ Ha Hb) as [z Hz].
  exists z. unfold cell_op in *. rewrite Hz. reflexivity.
Qed.

Lemma series_mean_row (c : cell) :
  is_str c = false -> exists v, series_mean [c] = Ok v.
Proof.
  intros Hc. unfold series_mean; simpl.
  destruct (as_float_not_str _ Hc) as [x ->]. simpl; eauto.
Qed.

Lemma series_std_row (c : cell) :
  is_str c = false -> exists v, series_std [c] = Ok v.
Proof.
  intros Hc. unfold series_std; simpl.
  destruct (as_float_not_str _ Hc) as [x ->]. simpl; eauto.
Qed.

(** The mean of one column, on a one-row frame. *)
Lemma mean_on_row (row : dict cell) (col : string) :
  (exists c, dict_get row col = Some c /\ is_str c = false) ->
  exists v, (x <- getitem (DataFrame_of_row row) col ;; series_mean x) = Ok v.
Proof.
  intros (c & Hc & Hs). rewrite (getitem_row _ _ Hc). simpl.
  apply series_mean_row; assumption.
Qed.

(** The mean of the quotient of two columns, on a one-row frame. *)
Lemma ratio_on_row (row : dict cell) (num den : string) :
  (exists c, dict_get row num = Some c /\ is_str c = false) ->
  (exists c, dict_get row den = Some c /\ is_str c = false) ->
  exists v,
    (a <- getitem (DataFrame_of_row row) num ;;
     b <- getitem (DataFrame_of_row row) den ;;
     ratio <- series_div a b ;;
     series_mean ratio) = Ok v.
Proof.
  intros (a & Ha & Hsa) (b & Hb & Hsb).
  rewrite (getitem_row _ _ Ha), (getitem_row _ _ Hb). simpl.
  destruct (series_op_row PrimFloat.div _ _ Hsa Hsb) as [z Hz].
  unfold series_div. rewrite Hz. simpl.
  apply series_mean_row; reflexivity.
Qed.

(** On a one-row frame that has the columns a class reads, with no string
    in them, the [calculate] of that class returns. *)
Lemma calculate_on_row (self : FinancialFilter) (row : dict cell) :
  class_of self <> FinancialFilter_class ->
  (forall col, In col (columns_read (class_of self)) ->
               exists c, dict_get row col = Some c /\ is_str c = false) ->
  exists v, calculate self (DataFrame_of_row row) = Ok v.
Proof.
  intros Hcls Hcols. unfold calculate.
  destruct (class_of self); simpl in Hcols.
  - contradiction.
  - apply mean_on_row; auto.
  - apply ratio_on_row; auto.
  - apply ratio_on_row; auto.
  - apply ratio_on_row; auto.
  - apply ratio_on_row; auto.
  - apply mean_on_row; auto.
  - destruct (Hcols "grossProfit") as (gp & Hgp & Hsgp); [auto|].
    destruct (Hcols "operatingExpenses") as (oe & Hoe & Hsoe); [auto|].
    unfold OperatingPLFilter_calculate.
    rewrite (getitem_row _ _ Hgp), (getitem_row _ _ Hoe). simpl.
    destruct (series_op_row PrimFloat.sub _ _ Hsgp Hsoe) as [z Hz].
    unfold series_sub. rewrite Hz. simpl.
    destruct (series_op_row PrimFloat.div (CNum z) gp eq_refl Hsgp) as [w Hw].
    unfold series_div. rewrite Hw. simpl.
    apply series_mean_row; reflexivity.
  - destruct (Hcols "revenue") as (c & Hc & _); [auto|].
    unfold RevenueTrendFilter_calculate.
    rewrite (getitem_row _ _ Hc). simpl. eauto.
  - apply ratio_on_row; auto.
  - destruct (Hcols "sellingGeneralAndAdministrativeExpenses") as (a & Ha & Hsa);
      [auto|].
    destruct (Hcols "grossProfit") as (b & Hb & Hsb); [auto|].
    unfold SGAConsistencyFilter_calculate.
    rewrite (getitem_row _ _ Ha), (getitem_row _ _ Hb). simpl.
    destruct (series_op_row PrimFloat.div _ _ Hsa Hsb) as [z Hz].
    unfold series_div. rewrite Hz. cbn [bind].
    destruct (series_std_row (CNum z) eq_refl) as [s ->].
    destruct (series_mean_row (CNum z) eq_refl) as [m ->].
    cbn [bind]; eauto.
  - apply ratio_on_row; auto.
Qed.

Lemma dict_get_In_values {V : Type} (d : dict V) (k : string) (v : V) :
  dict_get d k = Some v -> In v (map snd d).
Proof.
  induction d as [|[k' v'] d IH]; simpl; [discriminate|].
  destruct (String.eqb k' k); intros H; [injection H as ->; auto | auto].
Qed.

Lemma catalogue_classes (id : string) (self : FinancialFilter) :
  dict_get AVAILABLE_FILTERS id = Some self ->
  class_of self <> FinancialFilter_class.
Proof.
  intros H. apply dict_get_In_values in H. simpl in H.
  repeat (destruct H as [<-|H]; [discriminate|]). contradiction.
Qed.

(** *** Labels *)

Lemma quarter_label_present (float_repr : float -> string) (quarter : dict cell)
  (year period : string) :
  dict_get quarter "calendarYear" = Some (CStr year) ->
  dict_get quarter "period" = Some (CStr period) ->
  year <> EmptyString -> period <> EmptyString ->
  quarter_label float_repr quarter = Some (year ++ "-" ++ period).
Proof.
  intros Hy Hp Hny Hnp. unfold quarter_label, row_get. rewrite Hy, Hp. simpl.
  destruct (String.eqb_spec year EmptyString); [contradiction|].
  destruct (String.eqb_spec period EmptyString); [contradiction|].
  reflexivity.
Qed.

Lemma quarter_label_absent (float_repr : float -> string) (quarter : dict cell) :
  blank (dict_get quarter "calendarYear") \/ blank (dict_get quarter "period") ->
  quarter_label float_repr quarter = None.
Proof.
  unfold quarter_label, row_get, blank.
  intros [[H|[H|H]]|[H|[H|H]]]; rewrite H; simpl;
    try reflexivity; rewrite andb_false_r; reflexivity.
Qed.

(** C6 (as the code has it): for a filter of the catalogue and a table
    that has every column the filter reads, with no string in it,
    [get_quarterly_data] returns a series with exactly one entry per
    quarter of the table; the label of a quarter is
    "{calendarYear}-{period}" when both fields are non-empty strings in
    that quarter, and absent when one of them is not in the table, is
    [None] or is the empty string. *)
Theorem quarterly_series_length_and_labels (float_repr : float -> string)
  (id : string) (self : FinancialFilter) (income_df : DataFrame) :
  dict_get AVAILABLE_FILTERS id = Some self ->
  (forall col, In col (columns_read (class_of self)) ->
               numeric_column income_df col = true) ->
  exists s,
    get_quarterly_data float_repr self income_df = Some s
    /\ List.length s = nrows income_df
    /\ map fst s = map (quarter_label float_repr) (iterrows income_df)
    /\ (forall quarter, In quarter (iterrows income_df) ->
          (forall year period,
              dict_get quarter "calendarYear" = Some (CStr year) ->
              dict_get quarter "period" = Some (CStr period) ->
              year <> EmptyString -> period <> EmptyString ->
              quarter_label float_repr quarter = Some (year ++ "-" ++ period))
          /\ (blank (dict_get quarter "calendarYear")
              \/ blank (dict_get quarter "period") ->
              quarter_label float_repr quarter = None)).
Proof.
  intros Hcat Hcols.
  assert (Hall : exists vs,
             mapM (fun quarter => calculate self (DataFrame_of_row quarter))
               (iterrows income_df) = Ok vs).
  { apply mapM_all_Ok. intros quarter Hin.
    unfold iterrows in Hin. apply in_map_iff in Hin. destruct Hin as (i & <- & _).
    apply calculate_on_row; [exact (catalogue_classes _ Hcat)|].
    intros col Hcol. apply row_at_numeric. auto. }
  destruct Hall as [vs Hvs].
  assert (Hs : get_quarterly_data float_repr self income_df
               = Some (combine (map (quarter_label float_repr) (iterrows income_df)) vs)).
  { rewrite get_quarterly_data_mapM, Hvs. reflexivity. }
  eexists. split; [exact Hs|].
  destruct (get_quarterly_data_length _ _ _ Hs) as [Hlen Hlab].
  split; [exact Hlen|]. split; [exact Hlab|].
  intros quarter _. split.
  - intros year period. apply quarter_label_present.
  - apply quarter_label_absent.
Qed.

(** A quarter that lacks [calendarYear] in a table where another quarter
    has it: pandas stores NaN there, NaN is true in an [if], and the label
    is built from it. *)
Example quarter_label_of_missing_year :
  option_map (map fst)
    (get_quarterly_data sample_float_repr GrossProfitRatioFilter_init
       (DataFrame_of_records quarters_missing_year))
  = Some [Some "2023-Q1"; Some "nan-Q2"].
Proof. reflexivity. Qed.

(** C6, the claim as stated fails: a table of one quarter that lacks the
    column the gross-profit filter reads has no series at all. *)
Lemma quarterly_series_absent_without_column :
  dict_get AVAILABLE_FILTERS "gross_profit_ratio" = Some GrossProfitRatioFilter_init
  /\ nrows (DataFrame_of_records quarter_without_ratio) = 1
  /\ get_quarterly_data sample_float_repr GrossProfitRatioFilter_init
       (DataFrame_of_records quarter_without_ratio)
     = None.
Proof.
  repeat split.
Qed.

(** ** The keys of an analysis *)

Lemma existsb_eqb_false (x : string) (l : list string) :
  ~ In x l -> existsb (String.eqb x) l = false.
Proof.
  intros Hnot. destruct (existsb (String.eqb x) l) eqn:E; [|reflexivity].
  apply existsb_exists in E. destruct E as (y & Hin & Hy).
  apply String.eqb_eq in Hy. subst. contradiction.
Qed.

Lemma fold_add_key_fresh (l acc : list string) :
  NoDup l -> (forall x, In x l -> ~ In x acc) ->
  fold_left add_key l acc = (acc ++ l)%list.
Proof.
  revert acc. induction l as [|x l IH]; intros acc Hnd Hfresh; simpl.
  - rewrite app_nil_r. reflexivity.
  - inversion Hnd as [|? ? Hx Hl]; subst.
    unfold add_key at 2. rewrite existsb_eqb_false by (apply Hfresh; left; reflexivity).
    rewrite IH; [rewrite <- app_assoc; reflexivity | assumption |].
    intros y Hy Hin. apply in_app_or in Hin. destruct Hin as [Hin|[<-|[]]].
    + apply (Hfresh y); [right; assumption | assumption].
    + contradiction.
Qed.

Lemma first_occurrences_NoDup (l : list string) :
  NoDup l -> first_occurrences l = l.
Proof.
  intros H. unfold first_occurrences. rewrite fold_add_key_fresh; auto.
Qed.

Lemma add_key_In (acc : list string) (k x : string) :
  In x (add_key acc k) <-> In x acc \/ x = k.
Proof.
  unfold add_key. destruct (existsb (String.eqb k) acc) eqn:E.
  - apply existsb_exists in E. destruct E as (y & Hin & Hy).
    apply String.eqb_eq in Hy. subst y.
    split; [auto|]. intros [H| ->]; assumption.
  - rewrite in_app_iff. simpl. split.
    + intros [H|[<-|[]]]; auto.
    + intros [H| ->]; auto.
Qed.

Lemma fold_add_key_In (l acc : list string) (x : string) :
  In x (fold_left add_key l acc) <-> In x acc \/ In x l.
Proof.
  revert acc. induction l as [|k l IH]; intros acc; simpl.
  - tauto.
  - rewrite IH, add_key_In. split.
    + intros [[H|H]|H]; auto.
    + intros [H|[H|H]]; auto.
Qed.

Lemma first_occurrences_In (l : list string) (x : string) :
  In x (first_occurrences l) <-> In x l.
Proof.
  unfold first_occurrences. rewrite fold_add_key_In. simpl. tauto.
Qed.

(** What the loop of [analyze_company] has added when it ends. *)
Lemma analyze_loop_keys (float_repr : float -> string) (income_df : DataFrame)
  (ids : list string) (results results' : AnalysisResult) :
  analyze_loop float_repr income_df ids results = Ok results' ->
  company_name results' = company_name results
  /\ sector results' = sector results
  /\ dict_keys (filters results')
     = fold_left add_key (catalogued ids) (dict_keys (filters results))
  /\ (catalogued ids = [] -> results' = results).
Proof.
  revert results. induction ids as [|id ids IH]; intros results Hloop.
  - simpl in Hloop. injection Hloop as <-. repeat split.
  - simpl in Hloop. unfold catalogued in *. simpl.
    destruct (dict_contains AVAILABLE_FILTERS id) eqn:Hc; simpl in Hloop.
    + destruct (dict_getitem AVAILABLE_FILTERS id) as [filter_obj|e];
        simpl in Hloop; [|discriminate].
      destruct (get_result filter_obj income_df) as [filter_result|e];
        simpl in Hloop; [|discriminate].
      apply IH in Hloop. destruct Hloop as (Hn & Hs & Hk & _).
      destruct (get_quarterly_data float_repr filter_obj income_df);
        simpl in Hn, Hs, Hk; rewrite dict_keys_setitem in Hk;
        (split; [exact Hn|]; split; [exact Hs|]; split; [exact Hk|]; discriminate).
    + apply IH in Hloop. exact Hloop.
Qed.

(** The loop ends without an exception when every requested filter of
    the catalogue evaluates on the frame. *)
Lemma analyze_loop_returns (float_repr : float -> string) (income_df : DataFrame)
  (ids : list string) (results : AnalysisResult) :
  (forall id filter_obj,
      In id ids -> dict_get AVAILABLE_FILTERS id = Some filter_obj ->
      exists r, get_result filter_obj income_df = Ok r) ->
  exists results', analyze_loop float_repr income_df ids results = Ok results'.
Proof.
  revert results. induction ids as [|id ids IH]; intros results Hev; simpl.
  - eauto.
  - destruct (dict_contains AVAILABLE_FILTERS id) eqn:Hc; simpl.
    + destruct (dict_contains_getitem _ _ Hc) as (filter_obj & Hget & Hitem).
      rewrite Hitem. simpl.
      destruct (Hev id filter_obj (or_introl eq_refl) Hget) as [filter_result Hfr].
      rewrite Hfr. simpl.
      apply IH. intros; eapply Hev; [right|]; eassumption.
    + apply IH. intros; eapply Hev; [right|]; eassumption.
Qed.

(** C7: whenever [analyze_company] returns a result for a list of
    requested identifiers, the keys of its filter results are the
    requested identifiers that are in the catalogue, in the order of the
    request (each at its first occurrence); identifiers the catalogue does
    not know are dropped, and a request with none that it knows gives a
    result with empty filters and empty quarterly data.  It does return a
    result when the provider delivers a profile with a company name and a
    sector and a list of quarters, and every requested filter of the
    catalogue evaluates on the table. *)
Theorem analysis_keys_follow_request (float_repr : float -> string)
  (self : CompanyAnalyzer) (company : string) (ids : list string) :
  (forall results,
      analyze_company float_repr self company (Some ids) = Ok (Analysed results) ->
      dict_keys (filters results) = first_occurrences (catalogued ids)
      /\ (NoDup ids -> dict_keys (filters results) = catalogued ids)
      /\ (forall id, In id (dict_keys (filters results)) <->
                     In id ids /\ dict_contains AVAILABLE_FILTERS id = true)
      /\ (catalogued ids = [] ->
          filters results = [] /\ quarterly_data results = []))
  /\ (forall cname sec statement,
        dict_get (get_company_profile (api self) company) "companyName" = Some cname ->
        dict_get (get_company_profile (api self) company) "sector" = Some sec ->
        get_income_statement (api self) company = JList statement ->
        (forall id filter_obj,
            In id ids -> dict_get AVAILABLE_FILTERS id = Some filter_obj ->
            exists r,
              get_result filter_obj
                (DataFrame_of_records (rev (firstn (n_quarters self) statement)))
              = Ok r) ->
        exists results,
          analyze_company float_repr self company (Some ids) = Ok (Analysed results)
          /\ company_name results = cname
          /\ sector results = sec).
Proof.
  split.
  - intros results H.
    unfold analyze_company, get_company_data in H.
    destruct (slice_to (n_quarters self) (get_income_statement (api self) company))
      as [first|e]; cbn [bind] in H; [|discriminate].
    cbn [company_info income_statement] in H.
    destruct (dict_getitem (get_company_profile (api self) company) "companyName")
      as [cname|e]; cbn [bind] in H; [|discriminate].
    destruct (dict_getitem (get_company_profile (api self) company) "sector")
      as [sec|e]; cbn [bind] in H; [|discriminate].
    match type of H with
    | bind ?m _ = _ => destruct m as [r|e] eqn:Hloop; cbn [bind] in H; [|discriminate]
    end.
    injection H as <-.
    apply analyze_loop_keys in Hloop. destruct Hloop as (_ & _ & Hk & He).
    simpl in Hk.
    assert (Hfirst : dict_keys (filters r) = first_occurrences (catalogued ids))
      by exact Hk.
    split; [exact Hfirst|]. split; [|split].
    + intros Hnd. rewrite Hfirst. apply first_occurrences_NoDup.
      unfold catalogued. apply NoDup_filter. assumption.
    + intros id. rewrite Hfirst, first_occurrences_In.
      unfold catalogued. apply filter_In.
    + intros Hnone. rewrite (He Hnone). split; reflexivity.
  - intros cname sec statement Hname Hsec Hst Hev.
    unfold analyze_company, get_company_data, dict_getitem.
    rewrite Hst. cbn [bind slice_to company_info income_statement].
    rewrite Hname, Hsec. cbn [bind].
    match goal with
    | |- exists r, bind (analyze_loop _ ?df _ ?start) _ = _ /\ _ =>
        destruct (@analyze_loop_returns float_repr df ids start Hev)
          as (results & Hloop)
    end.
    rewrite Hloop. cbn [bind]. exists results.
    apply analyze_loop_keys in Hloop. destruct Hloop as (Hn & Hs & _).
    split; [reflexivity|]. split; [exact Hn | exact Hs].
Qed.

(** ** The order of floats *)

Lemma SFcompare_antisym (x y : spec_float) :
  SFcompare y x = option_map CompOpp (SFcompare x y).
Proof.
  destruct x as [sx|sx| |sx mx ex], y as [sy|sy| |sy my ey]; simpl;
    try reflexivity;
    try (destruct sx; reflexivity); try (destruct sy; reflexivity);
    try (destruct sx, sy; reflexivity).
  destruct sx, sy; try reflexivity;
    rewrite (Z.compare_antisym ex ey);
    destruct (ex ?= ey)%Z; simpl; try reflexivity;
    rewrite (Pos.compare_cont_antisym mx my Eq); simpl;
    destruct (Pos.compare_cont Eq mx my); reflexivity.
Qed.

Lemma ltb_antisym (x y : float) : (x <? y)%float = true -> (y <? x)%float = false.
Proof.
  rewrite !FloatAxioms.ltb_spec. unfold SFltb.
  rewrite (SFcompare_antisym (Prim2SF x) (Prim2SF y)).
  destruct (SFcompare (Prim2SF x) (Prim2SF y)) as [[]|]; simpl; congruence.
Qed.

Lemma leb_negb_ltb (x y : float) :
  is_nan x = false -> is_nan y = false ->
  (x <=? y)%float = negb (y <? x)%float.
Proof.
  intros Hx Hy. rewrite FloatAxioms.leb_spec, FloatAxioms.ltb_spec.
  unfold SFleb, SFltb.
  rewrite (SFcompare_antisym (Prim2SF x) (Prim2SF y)).
  unfold is_nan in Hx, Hy. rewrite FloatAxioms.eqb_spec in Hx, Hy.
  unfold SFeqb in Hx, Hy.
  destruct (Prim2SF x) as [sx|sx| |sx mx ex], (Prim2SF y) as [sy|sy| |sy my ey];
    simpl in *; try discriminate;
    try match goal with |- context [SFcompare ?a ?b] => destruct (SFcompare a b) as [[]|] end;
    try reflexivity;
    try (destruct sx; reflexivity); try (destruct sy; reflexivity);
    try (destruct sx, sy; reflexivity).
  destruct sx, sy; try reflexivity;
    destruct (ex ?= ey)%Z; simpl; try reflexivity;
    destruct (Pos.compare_cont Eq mx my); reflexivity.
Qed.

Lemma ltb_nan_l (y : float) : (nan <? y)%float = false.
Proof. rewrite FloatAxioms.ltb_spec. reflexivity. Qed.

Lemma ltb_nan_r (x : float) : (x <? nan)%float = false.
Proof.
  rewrite FloatAxioms.ltb_spec. unfold SFltb.
  change (Prim2SF nan) with S754_nan.
  destruct (Prim2SF x) as [s|s| |s m e]; reflexivity.
Qed.

Lemma leb_nan_l (y : float) : (nan <=? y)%float = false.
Proof. rewrite FloatAxioms.leb_spec. reflexivity. Qed.

Lemma leb_nan_r (x : float) : (x <=? nan)%float = false.
Proof.
  rewrite FloatAxioms.leb_spec. unfold SFleb.
  change (Prim2SF nan) with S754_nan.
  destruct (Prim2SF x) as [s|s| |s m e]; reflexivity.
Qed.

(** ** The ranges of the catalogue *)

Ltac order_cases :=
  repeat match goal with
    | H : (?x <? ?y)%float = true |- context [(?y <? ?x)%float] =>
        rewrite (@ltb_antisym x y H)
    | |- context [(?x <? ?y)%float] => destruct (x <? y)%float eqn:?
    end.

(** X1: the ranges of every filter class instance that has ranges cover
    every float: [get_classification] never returns [None] for them. *)
Theorem classifications_exhaustive (self : FinancialFilter) (value : float) :
  In self all_filters ->
  classifications self <> [] ->
  exists d, get_classification self value = Some d.
Proof.
  intros Hin Hne. unfold all_filters in Hin. simpl in Hin.
  repeat (destruct Hin as [<-|Hin]);
    try contradiction; try (exfalso; apply Hne; reflexivity);
    unfold get_classification; simpl; unfold Classification.contains; simpl;
    order_cases; eauto.
Qed.

(** X2: NaN passes no threshold, whichever of the four operators the
    filter compares with, and is classified in the first range of a
    filter that has ranges, whatever the bounds of that range. *)
Theorem nan_passes_and_classification (self : FinancialFilter) :
  (forall t c, threshold self = Some t -> comparison self = Some c ->
               In c comparison_operators ->
               passes_threshold self nan = false)
  /\ (forall c rest, classifications self = c :: rest ->
                     get_classification self nan = Some (Classification.description c)).
Proof.
  split.
  - intros t c Ht Hc Hin. unfold passes_threshold. rewrite Ht, Hc.
    simpl in Hin. destruct Hin as [<-|[<-|[<-|[<-|[]]]]]; simpl.
    + apply leb_nan_r.
    + apply leb_nan_l.
    + apply ltb_nan_r.
    + apply ltb_nan_l.
  - intros c rest Hcs. unfold get_classification. rewrite Hcs. simpl.
    unfold Classification.contains.
    destruct (Classification.min_value c); destruct (Classification.max_value c);
      rewrite ?ltb_nan_l, ?ltb_nan_r; reflexivity.
Qed.

(** X3: for the gross-profit, SG&A, depreciation and operating P&L
    filters, a value that is not NaN passes the threshold exactly when
    it is classified in the first range; the net-income filter is not
    one of them: 0.2 fails its threshold and is in its first range. *)
Theorem passes_iff_first_band (self : FinancialFilter) (value : float) :
  In self threshold_is_first_bound ->
  is_nan value = false ->
  (passes_threshold self value = true <->
   get_classification self value = first_band self)
  /\ passes_threshold NetIncomeRatioFilter_init 0.2%float = false
  /\ get_classification NetIncomeRatioFilter_init 0.2%float
     = first_band NetIncomeRatioFilter_init.
Proof.
  intros Hin Hv. split; [|split; reflexivity].
  simpl in Hin.
  destruct Hin as [<-|[<-|[<-|[<-|[]]]]];
    unfold passes_threshold, get_classification, first_band; simpl;
    unfold Classification.contains; simpl;
    match goal with
    | |- context [(?a <=? ?b)%float] =>
        rewrite (@leb_negb_ltb a b) by (assumption || reflexivity)
    end;
    order_cases; simpl; split; intros H; try reflexivity; discriminate H.
Qed.

(** ** A column of nulls *)

Lemma is_nan_true (x : float) : is_nan x = true -> x = nan.
Proof.
  intros H. apply Prim2SF_inj. change (Prim2SF nan) with S754_nan.
  destruct (Prim2SF x) as [s|s| |s m e] eqn:E; try reflexivity;
    exfalso; rewrite is_nan_false in H; try discriminate; rewrite E; discriminate.
Qed.

Lemma mapM_as_float_null (col : Series) :
  forallb is_null col = true ->
  exists xs, mapM as_float col = Ok xs /\ dropna xs = [].
Proof.
  induction col as [|c col IH]; simpl; intros H.
  - exists []. split; reflexivity.
  - apply andb_true_iff in H. destruct H as [Hc Hcol].
    destruct (IH Hcol) as (xs & -> & Hxs).
    destruct c as [x|n|s|]; simpl in Hc; try discriminate; simpl.
    + exists (x :: xs). split; [reflexivity|]. simpl. rewrite Hc. exact Hxs.
    + exists (nan :: xs). split; [reflexivity|]. exact Hxs.
Qed.

(** X4: on a table whose ratio column holds nothing but nulls, the
    gross-profit and net-income filters return NaN, which fails the
    threshold and is classified as a durable competitive advantage. *)
Theorem all_null_column_result (self : FinancialFilter) (income_df : DataFrame)
  (column : string) (cells : Series) :
  In self [GrossProfitRatioFilter_init; NetIncomeRatioFilter_init] ->
  mean_column (class_of self) = Some column ->
  getitem income_df column = Ok cells ->
  forallb is_null cells = true ->
  exists r,
    get_result self income_df = Ok r
    /\ Result.value r = nan
    /\ Result.passes r = Some false
    /\ Result.classification r = Some (Some "Durable competitive advantage").
Proof.
  intros Hin Hcol Hget Hnull.
  destruct (mapM_as_float_null _ Hnull) as (xs & Hxs & Hdrop).
  destruct Hin as [<-|[<-|[]]]; simpl in Hcol; injection Hcol as <-;
    unfold get_result; simpl; unfold FinancialFilter_get_result, calculate; simpl;
    [unfold GrossProfitRatioFilter_calculate | unfold NetIncomeRatioFilter_calculate];
    rewrite Hget; cbn [bind]; unfold series_mean; rewrite Hxs; cbn [bind];
    unfold nanmean; rewrite Hdrop;
    eexists; (split; [reflexivity|]); repeat split.
Qed.

(** ** The [KeyError] of [calculate] *)

Lemma mapM_only_TypeError {A B : Type} (f : A -> exc B) (xs : list A) (e : exn) :
  (forall x e', f x = Raise e' -> e' = TypeError) ->
  mapM f xs = Raise e -> e = TypeError.
Proof.
  intros Hf H. destruct (mapM_Raise _ _ H) as (x & _ & Hx). exact (Hf _ _ Hx).
Qed.

Lemma as_float_only_TypeError (c : cell) (e : exn) :
  as_float c = Raise e -> e = TypeError.
Proof. destruct c; simpl; intros H; try discriminate; congruence. Qed.

Lemma np_float_only_TypeError (c : cell) (e : exn) :
  np_float c = Raise e -> e = TypeError.
Proof. destruct c; simpl; intros H; try discriminate; congruence. Qed.

Lemma cell_op_only_TypeError (op : float -> float -> float) (p : cell * cell) (e : exn) :
  cell_op op p = Raise e -> e = TypeError.
Proof.
  destruct p as [a b]. unfold cell_op.
  destruct (is_null a || is_null b); [discriminate|].
  destruct (as_float a) eqn:Ha; simpl.
  - destruct (as_float b) eqn:Hb; simpl; [discriminate|].
    intros H; injection H as <-. exact (as_float_only_TypeError _ Hb).
  - intros H; injection H as <-. exact (as_float_only_TypeError _ Ha).
Qed.

Lemma series_op_only_TypeError (op : float -> float -> float) (a b : Series) (e : exn) :
  series_op op a b = Raise e -> e = TypeError.
Proof.
  unfold series_op. apply mapM_only_TypeError. apply cell_op_only_TypeError.
Qed.

Lemma series_mean_only_TypeError (s : Series) (e : exn) :
  series_mean s = Raise e -> e = TypeError.
Proof.
  unfold series_mean. destruct (mapM as_float s) eqn:H; simpl; [discriminate|].
  intros H'; injection H' as <-.
  eapply mapM_only_TypeError; [|exact H]. apply as_float_only_TypeError.
Qed.

Lemma series_std_only_TypeError (s : Series) (e : exn) :
  series_std s = Raise e -> e = TypeError.
Proof.
  unfold series_std. destruct (mapM as_float s) eqn:H; simpl; [discriminate|].
  intros H'; injection H' as <-.
  eapply mapM_only_TypeError; [|exact H]. apply as_float_only_TypeError.
Qed.

Lemma np_diff_only_TypeError (a : list cell) (e : exn) :
  np_diff a = Raise e -> e = TypeError.
Proof.
  induction a as [|x rest IH]; [discriminate|].
  destruct rest as [|y rest']; [discriminate|].
  change (np_diff (x :: y :: rest'))
    with (fx <- np_float x ;; fy <- np_float y ;;
          ds <- np_diff (y :: rest') ;; Ok ((fy - fx)%float :: ds)).
  destruct (np_float x) eqn:Hx; cbn [bind];
    [|intros H; injection H as <-; exact (np_float_only_TypeError _ Hx)].
  destruct (np_float y) eqn:Hy; cbn [bind];
    [|intros H; injection H as <-; exact (np_float_only_TypeError _ Hy)].
  destruct (np_diff (y :: rest')) eqn:Hd; cbn [bind]; [discriminate|].
  intros H; injection H as <-. apply IH. reflexivity.
Qed.

Lemma np_divide_only_TypeError (d : list float) (a : list cell) (e : exn) :
  np_divide d a = Raise e -> e = TypeError.
Proof.
  unfold np_divide. apply mapM_only_TypeError.
  intros p e'. destruct (np_float (snd p)) eqn:Hp; simpl; [discriminate|].
  intros H; injection H as <-. exact (np_float_only_TypeError _ Hp).
Qed.

Lemma getitem_cases (df : DataFrame) (col : string) :
  (dict_contains (data df) col = true /\ exists s, getitem df col = Ok s)
  \/ (dict_contains (data df) col = false /\ getitem df col = Raise (KeyError col)).
Proof.
  unfold dict_contains, getitem, dict_getitem.
  destruct (dict_get (data df) col); [left; eauto | right; auto].
Qed.

Ltac key_cases income_df :=
  repeat match goal with
    | |- context [getitem income_df ?c] =>
        let s := fresh "s" in
        let Hc := fresh "Hc" in
        let Hs := fresh "Hs" in
        destruct (getitem_cases income_df c) as [[Hc [s Hs]]|[Hc Hs]];
        rewrite Hs in *; clear Hs; cbn [bind] in *
    end.

Ltac not_a_KeyError :=
  repeat match goal with
    | H : bind ?m _ = Raise (KeyError _) |- _ =>
        let E := fresh "E" in
        destruct m eqn:E; cbn [bind] in H;
        [| injection H as ->;
           first [ apply series_op_only_TypeError in E
                 | apply series_mean_only_TypeError in E
                 | apply series_std_only_TypeError in E
                 | apply np_diff_only_TypeError in E
                 | apply np_divide_only_TypeError in E ];
           discriminate E ]
    end.

Lemma calculate_KeyError_iff (self : FinancialFilter) (income_df : DataFrame)
  (column : string) :
  class_of self <> FinancialFilter_class ->
  (calculate self income_df = Raise (KeyError column) <->
   first_missing income_df (columns_read (class_of self)) = Some column).
Proof.
  intros Hcls. unfold calculate, first_missing.
  destruct (class_of self); try contradiction; clear Hcls;
    cbv [columns_read find
         GrossProfitRatioFilter_calculate SGARatioFilter_calculate
         RDRatioFilter_calculate DepreciationRatioFilter_calculate
         InterestRatioFilter_calculate NetIncomeRatioFilter_calculate
         OperatingPLFilter_calculate RevenueTrendFilter_calculate
         OperatingMarginFilter_calculate SGAConsistencyFilter_calculate
         IndustryAdjustedInterestFilter_calculate to_numpy];
    key_cases income_df;
    repeat match goal with H : dict_contains _ _ = _ |- _ => rewrite H; clear H end;
    cbn [negb];
    (split; intros H;
     [ first [ congruence
             | exfalso; unfold series_div, series_sub in H; not_a_KeyError;
               first [ discriminate H
                     | apply series_mean_only_TypeError in H; discriminate H
                     | apply series_op_only_TypeError in H; discriminate H ] ]
     | first [ congruence | discriminate H ] ]).
Qed.

(** X5: [calculate] raises [KeyError] exactly when the table lacks a
    column the class reads, and the key of the error is the first such
    column in the order in which [calculate] selects them. *)
Theorem calculate_key_errors (self : FinancialFilter) (income_df : DataFrame) :
  class_of self <> FinancialFilter_class ->
  (forall column,
      calculate self income_df = Raise (KeyError column) <->
      first_missing income_df (columns_read (class_of self)) = Some column)
  /\ (forall column,
        calculate self income_df = Raise (KeyError column) ->
        In column (columns_read (class_of self))
        /\ dict_contains (data income_df) column = false)
  /\ ((forall column, In column (columns_read (class_of self)) ->
                      dict_contains (data income_df) column = true) ->
      forall column, calculate self income_df <> Raise (KeyError column)).
Proof.
  intros Hcls. split; [|split].
  - intros column. apply calculate_KeyError_iff. exact Hcls.
  - intros column H. apply (@calculate_KeyError_iff self income_df column Hcls) in H.
    unfold first_missing in H. apply find_some in H. destruct H as [Hin Hc].
    split; [exact Hin|].
    destruct (dict_contains (data income_df) column); [discriminate Hc | reflexivity].
  - intros Hall column H. apply (@calculate_KeyError_iff self income_df column Hcls) in H.
    unfold first_missing in H. apply find_some in H. destruct H as [Hin Hc].
    rewrite (Hall column Hin) in Hc. discriminate Hc.
Qed.

(** ** Null quarters *)



(** ** Series that are NaN throughout *)

Lemma mapM_constant {A B : Type} (f : A -> exc B) (xs : list A) (y : B) :
  (forall x, In x xs -> f x = Ok y) -> mapM f xs = Ok (repeat y (List.length xs)).
Proof.
  induction xs as [|x xs IH]; intros H; simpl; [reflexivity|].
  rewrite (H x (or_introl eq_refl)). cbn [bind].
  rewrite IH by (intros; apply H; right; assumption). reflexivity.
Qed.

Lemma combine_repeat_snd {A B : Type} (l : list A) (y : B) (n : nat) :
  Forall (fun p => snd p = y) (combine l (repeat y n)).
Proof.
  revert n; induction l as [|x l IH]; intros [|n]; simpl; constructor;
    [reflexivity | apply IH].
Qed.

Lemma constant_series (float_repr : float -> string) (self : FinancialFilter)
  (income_df : DataFrame) (y : float) :
  (forall quarter, In quarter (iterrows income_df) ->
                   calculate self (DataFrame_of_row quarter) = Ok y) ->
  exists s,
    get_quarterly_data float_repr self income_df = Some s
    /\ List.length s = nrows income_df
    /\ Forall (fun point => snd point = y) s.
Proof.
  intros H. rewrite get_quarterly_data_mapM.
  rewrite (mapM_constant (fun quarter => calculate self (DataFrame_of_row quarter))
             (iterrows income_df) H).
  eexists. split; [reflexivity|]. split.
  - rewrite length_combine, length_map, repeat_length, Nat.min_id.
    apply iterrows_length.
  - apply combine_repeat_snd.
Qed.

Lemma row_at_has_column (income_df : DataFrame) (i : nat) (col : string) :
  dict_contains (data income_df) col = true ->
  exists c, dict_get (row_at income_df i) col = Some c.
Proof.
  unfold dict_contains, row_at. intros H.
  rewrite (dict_get_map_values
             (fun cells => cast (row_dtype income_df) (nth i cells (CNum nan)))).
  unfold Series in *.
  destruct (@dict_get (list cell) (data income_df) col); [|discriminate].
  simpl; eauto.
Qed.

(** X7: the quarterly series of the revenue-trend filter exists for
    every table with a [revenue] column, has one point for each quarter
    and is NaN throughout (one quarter has no growth rate); so is
    [calculate] on a table of at most one quarter. *)
Theorem revenue_trend_series_all_nan (float_repr : float -> string)
  (self : FinancialFilter) (income_df : DataFrame) :
  class_of self = RevenueTrendFilter ->
  dict_contains (data income_df) "revenue" = true ->
  (exists s,
      get_quarterly_data float_repr self income_df = Some s
      /\ List.length s = nrows income_df
      /\ Forall (fun point => snd point = nan) s)
  /\ (forall cells,
        getitem income_df "revenue" = Ok cells ->
        (List.length cells <= 1)%nat ->
        calculate self income_df = Ok nan).
Proof.
  intros Hcls Hcol. split.
  - apply constant_series. intros quarter Hin.
    unfold iterrows in Hin. apply in_map_iff in Hin. destruct Hin as (i & <- & _).
    destruct (row_at_has_column income_df i "revenue" Hcol) as [c Hc].
    unfold calculate. rewrite Hcls. unfold RevenueTrendFilter_calculate.
    rewrite (getitem_row _ _ Hc). reflexivity.
  - intros cells Hget Hlen. unfold calculate. rewrite Hcls.
    unfold RevenueTrendFilter_calculate. rewrite Hget. cbn [bind].
    destruct cells as [|c [|c' cells]]; [reflexivity | reflexivity |].
    simpl in Hlen. lia.
Qed.

Lemma div_nan_l (y : float) : (nan / y)%float = nan.
Proof.
  apply Prim2SF_inj. rewrite FloatAxioms.div_spec. reflexivity.
Qed.

Lemma nanstd_single (z : float) : nanstd [z] = nan.
Proof. unfold nanstd, dropna. simpl. destruct (is_nan z); reflexivity. Qed.

(** X8: the quarterly series of the SG&A consistency filter has one
    point for each quarter and is NaN throughout: the standard
    deviation of one quarter's ratio is NaN. *)
Theorem sga_consistency_series_all_nan (float_repr : float -> string)
  (self : FinancialFilter) (income_df : DataFrame) :
  class_of self = SGAConsistencyFilter ->
  numeric_column income_df "sellingGeneralAndAdministrativeExpenses" = true ->
  numeric_column income_df "grossProfit" = true ->
  exists s,
    get_quarterly_data float_repr self income_df = Some s
    /\ List.length s = nrows income_df
    /\ Forall (fun point => snd point = nan) s.
Proof.
  intros Hcls Hsga Hgp. apply constant_series. intros quarter Hin.
  unfold iterrows in Hin. apply in_map_iff in Hin. destruct Hin as (i & <- & _).
  destruct (row_at_numeric income_df i _ Hsga) as (a & Ha & Hsa).
  destruct (row_at_numeric income_df i _ Hgp) as (b & Hb & Hsb).
  unfold calculate. rewrite Hcls. unfold SGAConsistencyFilter_calculate.
  rewrite (getitem_row _ _ Ha), (getitem_row _ _ Hb). cbn [bind].
  destruct (series_op_row PrimFloat.div _ _ Hsa Hsb) as [z Hz].
  unfold series_div. rewrite Hz. cbn [bind].
  unfold series_std, series_mean. cbn [mapM as_float bind].
  rewrite nanstd_single, div_nan_l. reflexivity.
Qed.

(** ** A quarter without revenue *)

Lemma div_zero_not_finite (x y : float) (s : bool) :
  Prim2SF y = S754_zero s -> finite_float (x / y) = false.
Proof.
  intros Hy. unfold finite_float. rewrite FloatAxioms.div_spec, Hy.
  unfold SF64div, SFdiv. destruct (Prim2SF x); reflexivity.
Qed.

Lemma np_diff_length (a : list cell) (d : list float) :
  np_diff a = Ok d -> List.length d = (List.length a - 1)%nat.
Proof.
  revert d. induction a as [|x rest IH]; intros d H.
  - injection H as <-. reflexivity.
  - destruct rest as [|y rest'].
    + injection H as <-. reflexivity.
    + change (np_diff (x :: y :: rest'))
        with (fx <- np_float x ;; fy <- np_float y ;;
              ds <- np_diff (y :: rest') ;; Ok ((fy - fx)%float :: ds)) in H.
      destruct (np_float x); cbn [bind] in H; [|discriminate].
      destruct (np_float y); cbn [bind] in H; [|discriminate].
      destruct (np_diff (y :: rest')) as [ds|] eqn:Hd; cbn [bind] in H; [|discriminate].
      injection H as <-. simpl. rewrite (IH ds eq_refl). simpl. lia.
Qed.

Lemma nth_error_removelast {A : Type} (a : list A) (i : nat) (x : A) :
  nth_error a i = Some x -> (i + 1 < List.length a)%nat ->
  nth_error (removelast a) i = Some x.
Proof.
  revert i. induction a as [|y a IH]; intros i Hi Hlen; [destruct i; discriminate|].
  destruct a as [|z a]; [simpl in Hlen; lia|].
  destruct i as [|i]; [exact Hi|].
  change (removelast (y :: z :: a)) with (y :: removelast (z :: a)).
  simpl. apply IH; [exact Hi | simpl in *; lia].
Qed.

(** X9: a quarter other than the last with a revenue of zero makes the
    revenue-trend filter return an infinity or NaN. *)
Theorem revenue_trend_zero_revenue (self : FinancialFilter) (income_df : DataFrame)
  (cells : Series) (i : nat) (c : cell) (x : float) (s : bool) (v : float) :
  class_of self = RevenueTrendFilter ->
  getitem income_df "revenue" = Ok cells ->
  nth_error cells i = Some c ->
  (i + 1 < List.length cells)%nat ->
  np_float c = Ok x -> Prim2SF x = S754_zero s ->
  calculate self income_df = Ok v ->
  finite_float v = false.
Proof.
  intros Hcls Hget Hi Hlen Hc Hx Hv.
  unfold calculate in Hv. rewrite Hcls in Hv.
  unfold RevenueTrendFilter_calculate in Hv. rewrite Hget in Hv. cbn [bind] in Hv.
  unfold to_numpy, all_but_last in Hv.
  destruct (np_diff cells) as [d|] eqn:Hd; cbn [bind] in Hv; [|discriminate].
  destruct (np_divide d (removelast cells)) as [g|] eqn:Hg; cbn [bind] in Hv;
    [|discriminate].
  injection Hv as <-.
  pose proof (np_diff_length _ Hd) as Hdl.
  destruct (nth_error d i) as [di|] eqn:Hdi;
    [|apply nth_error_None in Hdi; lia].
  unfold np_divide in Hg.
  destruct (@mapM_nth_error _ _ _ _ _ i _ Hg
              (@nth_error_combine _ _ _ _ _ _ _ Hdi (nth_error_removelast _ _ Hi Hlen)))
    as (gi & Hgi & Hq).
  cbn [fst snd] in Hq. rewrite Hc in Hq. cbn [bind] in Hq. injection Hq as <-.
  unfold np_mean. apply div_not_finite_l.
  apply (@fsum_not_finite g (di / x)%float).
  - eapply nth_error_In; eassumption.
  - exact (div_zero_not_finite di _ Hx).
Qed.

(** ** Dictionaries: lookup after assignment *)

Lemma dict_get_setitem {V : Type} (d : dict V) (k k' : string) (v : V) :
  dict_get (dict_setitem d k v) k'
  = if String.eqb k k' then Some v else dict_get d k'.
Proof.
  induction d as [|[k0 v0] d IH]; simpl.
  - reflexivity.
  - destruct (String.eqb_spec k0 k) as [->|Hne]; simpl.
    + destruct (String.eqb k k'); reflexivity.
    + rewrite IH. destruct (String.eqb_spec k0 k') as [->|Hne'].
      * destruct (String.eqb_spec k k'); [congruence | reflexivity].
      * reflexivity.
Qed.

(** ** The analysis of a company, step by step *)

Lemma analyze_company_steps (float_repr : float -> string) (self : CompanyAnalyzer)
  (company : string) (requested : option (list string)) (statement : list record) :
  get_income_statement (api self) company = JList statement ->
  analyze_company float_repr self company requested
  = (cname <- dict_getitem (get_company_profile (api self) company) "companyName" ;;
     sec <- dict_getitem (get_company_profile (api self) company) "sector" ;;
     results <- analyze_loop float_repr (analysis_frame self statement)
                  (requested_ids requested)
                  {| company_name := cname; sector := sec;
                     filters := []; quarterly_data := [] |} ;;
     Ok (Analysed results)).
Proof.
  intros Hst. unfold analyze_company, get_company_data. rewrite Hst. reflexivity.
Qed.

Lemma get_result_raises (self : FinancialFilter) (income_df : DataFrame) (e : exn) :
  calculate self income_df = Raise e -> get_result self income_df = Raise e.
Proof.
  intros H. unfold get_result, FinancialFilter_get_result,
    IndustryAdjustedInterestFilter_get_result.
  destruct (class_of self); rewrite H; reflexivity.
Qed.

(** The step of the loop for an identifier of the catalogue. *)
Lemma analyze_loop_cons (float_repr : float -> string) (income_df : DataFrame)
  (id : string) (ids : list string) (results : AnalysisResult) (f : FinancialFilter) :
  dict_get AVAILABLE_FILTERS id = Some f ->
  analyze_loop float_repr income_df (id :: ids) results
  = (x <- get_result f income_df ;;
     analyze_loop float_repr income_df ids
       {| company_name := company_name results;
          sector := sector results;
          filters := dict_setitem (filters results) id x;
          quarterly_data :=
            match get_quarterly_data float_repr f income_df with
            | Some s => dict_setitem (quarterly_data results) id s
            | None => quarterly_data results
            end |}).
Proof.
  intros Hf. cbn [analyze_loop]. unfold dict_contains, dict_getitem. rewrite Hf.
  cbn [negb bind]. destruct (get_result f income_df) as [x|e]; cbn [bind];
    [|reflexivity].
  destruct (get_quarterly_data float_repr f income_df); reflexivity.
Qed.

Lemma analyze_loop_skip (float_repr : float -> string) (income_df : DataFrame)
  (id : string) (ids : list string) (results : AnalysisResult) :
  dict_get AVAILABLE_FILTERS id = None ->
  analyze_loop float_repr income_df (id :: ids) results
  = analyze_loop float_repr income_df ids results.
Proof.
  intros Hf. cbn [analyze_loop]. unfold dict_contains. rewrite Hf. reflexivity.
Qed.

Lemma catalogued_cons_known (id : string) (ids : list string) (f : FinancialFilter) :
  dict_get AVAILABLE_FILTERS id = Some f -> catalogued (id :: ids) = id :: catalogued ids.
Proof.
  intros H. unfold catalogued. cbn [filter]. unfold dict_contains. rewrite H. reflexivity.
Qed.

Lemma catalogued_cons_unknown (id : string) (ids : list string) :
  dict_get AVAILABLE_FILTERS id = None -> catalogued (id :: ids) = catalogued ids.
Proof.
  intros H. unfold catalogued. cbn [filter]. unfold dict_contains. rewrite H. reflexivity.
Qed.

(** What the loop leaves in the two dictionaries. *)
Lemma analyze_loop_contents (float_repr : float -> string) (income_df : DataFrame)
  (ids : list string) (start final : AnalysisResult) :
  analyze_loop float_repr income_df ids start = Ok final ->
  forall id,
    dict_get (filters final) id
    = (if existsb (String.eqb id) ids
       then match dict_get AVAILABLE_FILTERS id with
            | Some f => try_or_None (get_result f income_df)
            | None => dict_get (filters start) id
            end
       else dict_get (filters start) id)
    /\ dict_get (quarterly_data final) id
       = (if existsb (String.eqb id) ids
          then match dict_get AVAILABLE_FILTERS id with
               | Some f =>
                   match get_quarterly_data float_repr f income_df with
                   | Some s => Some s
                   | None => dict_get (quarterly_data start) id
                   end
               | None => dict_get (quarterly_data start) id
               end
          else dict_get (quarterly_data start) id).
Proof.
  revert start. induction ids as [|id0 ids IH]; intros start Hloop id.
  - cbn [analyze_loop] in Hloop. injection Hloop as <-. split; reflexivity.
  - cbn [existsb]. rewrite (eqb_sym_string id id0).
    destruct (dict_get AVAILABLE_FILTERS id0) as [f0|] eqn:Hf0.
    + rewrite (@analyze_loop_cons float_repr income_df id0 ids start f0 Hf0) in Hloop.
      destruct (get_result f0 income_df) as [x0|e] eqn:Hx0; cbn [bind] in Hloop;
        [|discriminate].
      destruct (IH _ Hloop id) as [IHf IHq]. clear IH.
      cbn [filters quarterly_data] in IHf, IHq.
      rewrite IHf, IHq. clear IHf IHq.
      destruct (String.eqb_spec id0 id) as [->|Hne]; cbn [orb].
      * rewrite Hf0, Hx0. cbn [try_or_None].
        destruct (get_quarterly_data float_repr f0 income_df) as [s0|] eqn:Hs0;
          rewrite ?dict_get_setitem, ?String.eqb_refl;
          destruct (existsb (String.eqb id) ids); split; reflexivity.
      * destruct (get_quarterly_data float_repr f0 income_df) as [s0|] eqn:Hs0;
          rewrite ?dict_get_setitem;
          destruct (String.eqb_spec id0 id); try contradiction;
          split; reflexivity.
    + rewrite (@analyze_loop_skip float_repr income_df id0 ids start Hf0) in Hloop.
      destruct (IH _ Hloop id) as [IHf IHq]. rewrite IHf, IHq.
      destruct (String.eqb_spec id0 id) as [->|Hne]; cbn [orb]; [|split; reflexivity].
      rewrite Hf0. destruct (existsb (String.eqb id) ids); split; reflexivity.
Qed.

Lemma existsb_eqb_In (x : string) (l : list string) :
  existsb (String.eqb x) l = true <-> In x l.
Proof.
  rewrite existsb_exists. split.
  - intros (y & Hin & Hy). apply String.eqb_eq in Hy. subst. exact Hin.
  - intros H. exists x. split; [exact H | apply String.eqb_refl].
Qed.

(** The loop returns only when every requested filter of the catalogue
    evaluates. *)
Lemma analyze_loop_all_evaluate (float_repr : float -> string) (income_df : DataFrame)
  (ids : list string) (start final : AnalysisResult) :
  analyze_loop float_repr income_df ids start = Ok final ->
  forall id f, In id ids -> dict_get AVAILABLE_FILTERS id = Some f ->
               exists x, get_result f income_df = Ok x.
Proof.
  revert start. induction ids as [|id0 ids IH]; intros start Hloop id f Hin Hf;
    [contradiction|].
  destruct (dict_get AVAILABLE_FILTERS id0) as [f0|] eqn:Hf0.
  - rewrite (@analyze_loop_cons float_repr income_df id0 ids start f0 Hf0) in Hloop.
    destruct (get_result f0 income_df) as [x0|e] eqn:Hx0; cbn [bind] in Hloop;
      [|discriminate].
    destruct Hin as [->|Hin]; [|exact (IH _ Hloop id f Hin Hf)].
    rewrite Hf0 in Hf. injection Hf as <-. eauto.
  - rewrite (@analyze_loop_skip float_repr income_df id0 ids start Hf0) in Hloop.
    destruct Hin as [->|Hin]; [congruence|]. exact (IH _ Hloop id f Hin Hf).
Qed.

(** X10: the analysis stores, under each requested identifier of the
    catalogue, what the catalogue's filter returns on the table. *)
Theorem analysis_contents (float_repr : float -> string) (self : CompanyAnalyzer)
  (company : string) (requested : option (list string)) (statement : list record)
  (results : AnalysisResult) :
  get_income_statement (api self) company = JList statement ->
  analyze_company float_repr self company requested = Ok (Analysed results) ->
  (forall id x,
      dict_get (filters results) id = Some x <->
      In id (requested_ids requested)
      /\ exists f, dict_get AVAILABLE_FILTERS id = Some f
                   /\ get_result f (analysis_frame self statement) = Ok x)
  /\ (forall id s,
        dict_get (quarterly_data results) id = Some s <->
        In id (requested_ids requested)
        /\ exists f, dict_get AVAILABLE_FILTERS id = Some f
                     /\ get_quarterly_data float_repr f (analysis_frame self statement)
                        = Some s).
Proof.
  intros Hst H. rewrite (@analyze_company_steps float_repr self company requested statement Hst) in H.
  destruct (dict_getitem (get_company_profile (api self) company) "companyName");
    cbn [bind] in H; [|discriminate].
  destruct (dict_getitem (get_company_profile (api self) company) "sector");
    cbn [bind] in H; [|discriminate].
  match type of H with
  | bind ?m _ = _ => destruct m as [final|e] eqn:Hloop; cbn [bind] in H; [|discriminate]
  end.
  injection H as <-.
  split; intros id v;
    destruct (@analyze_loop_contents _ _ _ _ _ Hloop id) as [Hf Hq];
    cbn [filters quarterly_data dict_get] in Hf, Hq.
  - rewrite Hf. clear Hf Hq.
    destruct (existsb (String.eqb id) (requested_ids requested)) eqn:Hex.
    + apply existsb_eqb_In in Hex.
      destruct (dict_get AVAILABLE_FILTERS id) as [f|].
      * destruct (get_result f (analysis_frame self statement)) as [x|e] eqn:Hx;
          cbn [try_or_None].
        -- split.
           ++ intros Hv. injection Hv as <-. split; [exact Hex | eauto].
           ++ intros [_ (f' & Hf' & Hx')]. injection Hf' as <-. congruence.
        -- split; [discriminate|].
           intros [_ (f' & Hf' & Hx')]. injection Hf' as <-. congruence.
      * split; [discriminate|]. intros [_ (f' & Hf' & _)]. discriminate.
    + split; [discriminate|]. intros [Hin _].
      apply existsb_eqb_In in Hin. congruence.
  - rewrite Hq. clear Hf Hq.
    destruct (existsb (String.eqb id) (requested_ids requested)) eqn:Hex.
    + apply existsb_eqb_In in Hex.
      destruct (dict_get AVAILABLE_FILTERS id) as [f|].
      * destruct (get_quarterly_data float_repr f (analysis_frame self statement))
          as [s|] eqn:Hs.
        -- split.
           ++ intros Hv. injection Hv as <-. split; [exact Hex | eauto].
           ++ intros [_ (f' & Hf' & Hx')]. injection Hf' as <-. congruence.
        -- split; [discriminate|].
           intros [_ (f' & Hf' & Hx')]. injection Hf' as <-. congruence.
      * split; [discriminate|]. intros [_ (f' & Hf' & _)]. discriminate.
    + split; [discriminate|]. intros [Hin _].
      apply existsb_eqb_In in Hin. congruence.
Qed.

Lemma analysis_frame_nrows (self : CompanyAnalyzer) (statement : list record) :
  nrows (analysis_frame self statement)
  = Nat.min (n_quarters self) (List.length statement).
Proof.
  unfold analysis_frame, DataFrame_of_records. cbn [nrows].
  rewrite length_rev, length_firstn. reflexivity.
Qed.

(** X11: every series of an analysis belongs to a filter that has a result,
    and has one point for each of the quarters kept. *)
Theorem analysis_series (float_repr : float -> string) (self : CompanyAnalyzer)
  (company : string) (requested : option (list string)) (statement : list record)
  (results : AnalysisResult) (id : string) (s : LabelledSeries) :
  get_income_statement (api self) company = JList statement ->
  analyze_company float_repr self company requested = Ok (Analysed results) ->
  dict_get (quarterly_data results) id = Some s ->
  dict_contains (filters results) id = true
  /\ List.length s = Nat.min (n_quarters self) (List.length statement)
  /\ (List.length s <= n_quarters self)%nat.
Proof.
  intros Hst H Hs. rewrite (@analyze_company_steps float_repr self company requested statement Hst) in H.
  destruct (dict_getitem (get_company_profile (api self) company) "companyName");
    cbn [bind] in H; [|discriminate].
  destruct (dict_getitem (get_company_profile (api self) company) "sector");
    cbn [bind] in H; [|discriminate].
  match type of H with
  | bind ?m _ = _ => destruct m as [final|e] eqn:Hloop; cbn [bind] in H; [|discriminate]
  end.
  injection H as <-.
  destruct (@analyze_loop_contents _ _ _ _ _ Hloop id) as [Hf Hq].
  cbn [filters quarterly_data dict_get] in Hf, Hq.
  rewrite Hq in Hs.
  destruct (existsb (String.eqb id) (requested_ids requested)) eqn:Hex;
    [|discriminate].
  apply existsb_eqb_In in Hex.
  destruct (dict_get AVAILABLE_FILTERS id) as [f|] eqn:Hfid; [|discriminate].
  destruct (get_quarterly_data float_repr f (analysis_frame self statement))
    as [s'|] eqn:Hs'; [|discriminate].
  injection Hs as <-.
  destruct (@analyze_loop_all_evaluate _ _ _ _ _ Hloop id f Hex Hfid) as [x Hx].
  assert (Hlen : List.length s' = Nat.min (n_quarters self) (List.length statement)).
  { destruct (@get_quarterly_data_length _ _ _ _ Hs') as [Hl _].
    rewrite Hl. apply analysis_frame_nrows. }
  split; [|split; [exact Hlen | rewrite Hlen; apply Nat.le_min_l]].
  unfold dict_contains. rewrite Hf, Hx. reflexivity.
Qed.

(** ** The first filter that fails *)

Lemma analyze_loop_first_failure (float_repr : float -> string) (income_df : DataFrame)
  (ids : list string) (start : AnalysisResult) (e : exn) :
  analyze_loop float_repr income_df ids start = Raise e <->
  exists before id after f,
    ids = (before ++ id :: after)%list
    /\ (forall id' f', In id' before -> dict_get AVAILABLE_FILTERS id' = Some f' ->
                       exists x, get_result f' income_df = Ok x)
    /\ dict_get AVAILABLE_FILTERS id = Some f
    /\ get_result f income_df = Raise e.
Proof.
  split.
  - revert start. induction ids as [|id0 ids IH]; intros start H; [discriminate|].
    destruct (dict_get AVAILABLE_FILTERS id0) as [f0|] eqn:Hf0.
    + rewrite (@analyze_loop_cons float_repr income_df id0 ids start f0 Hf0) in H.
      destruct (get_result f0 income_df) as [x0|e0] eqn:Hx0; cbn [bind] in H.
      * destruct (IH _ H) as (before & id & after & f & -> & Hok & Hf & He).
        exists (id0 :: before), id, after, f. repeat split; auto.
        intros id' f' [<-|Hin] Hf'; [|eauto].
        rewrite Hf0 in Hf'. injection Hf' as <-. eauto.
      * injection H as <-. exists [], id0, ids, f0. repeat split; auto.
        intros id' f' [].
    + rewrite (@analyze_loop_skip float_repr income_df id0 ids start Hf0) in H.
      destruct (IH _ H) as (before & id & after & f & -> & Hok & Hf & He).
      exists (id0 :: before), id, after, f. repeat split; auto.
      intros id' f' [<-|Hin] Hf'; [congruence | eauto].
  - intros (before & id & after & f & -> & Hok & Hf & He).
    revert start. induction before as [|b before IH]; intros start.
    + cbn [app]. rewrite (@analyze_loop_cons float_repr income_df id after start f Hf).
      rewrite He. reflexivity.
    + cbn [app]. destruct (dict_get AVAILABLE_FILTERS b) as [fb|] eqn:Hfb.
      * rewrite (@analyze_loop_cons float_repr income_df b _ start fb Hfb).
        destruct (Hok b fb (or_introl eq_refl) Hfb) as [x ->]. cbn [bind].
        apply IH. intros id' f' Hin. apply Hok. right. exact Hin.
      * rewrite (@analyze_loop_skip float_repr income_df b _ start Hfb).
        apply IH. intros id' f' Hin. apply Hok. right. exact Hin.
Qed.

(** X12: one filter that fails ends the analysis: [analyze_company] raises
    the exception of the first requested filter whose [get_result]
    raises. *)
Theorem analysis_first_failure (float_repr : float -> string) (self : CompanyAnalyzer)
  (company : string) (requested : option (list string)) (statement : list record)
  (cname sec : cell) (e : exn) :
  get_income_statement (api self) company = JList statement ->
  dict_get (get_company_profile (api self) company) "companyName" = Some cname ->
  dict_get (get_company_profile (api self) company) "sector" = Some sec ->
  (analyze_company float_repr self company requested = Raise e <->
   exists before id after f,
     requested_ids requested = (before ++ id :: after)%list
     /\ (forall id' f', In id' before -> dict_get AVAILABLE_FILTERS id' = Some f' ->
                        exists x, get_result f' (analysis_frame self statement) = Ok x)
     /\ dict_get AVAILABLE_FILTERS id = Some f
     /\ get_result f (analysis_frame self statement) = Raise e).
Proof.
  intros Hst Hname Hsec.
  rewrite (@analyze_company_steps float_repr self company requested statement Hst).
  unfold dict_getitem. rewrite Hname, Hsec. cbn [bind].
  set (start := {| company_name := cname; sector := sec;
                   filters := []; quarterly_data := [] |}).
  rewrite <- (@analyze_loop_first_failure float_repr (analysis_frame self statement)
                (requested_ids requested) start e).
  destruct (analyze_loop float_repr (analysis_frame self statement)
              (requested_ids requested) start) as [final|e']; cbn [bind].
  - split; discriminate.
  - split; intros H; injection H as <-; reflexivity.
Qed.

(** ** The empty table *)

Lemma get_result_on_empty_frame (id : string) (f : FinancialFilter) :
  dict_get AVAILABLE_FILTERS id = Some f ->
  exists column,
    hd_error (columns_read (class_of f)) = Some column
    /\ get_result f (DataFrame_of_records []) = Raise (KeyError column).
Proof.
  intros Hf. pose proof (catalogue_classes _ Hf) as Hcls.
  destruct (columns_read (class_of f)) as [|column rest] eqn:Hcols.
  - destruct (class_of f); try discriminate Hcols. contradiction.
  - exists column. split; [reflexivity|]. apply get_result_raises.
    apply calculate_KeyError_iff; [exact Hcls|].
    rewrite Hcols. reflexivity.
Qed.

Lemma analyze_loop_on_empty_frame (float_repr : float -> string)
  (ids : list string) (start : AnalysisResult) :
  match catalogued ids with
  | [] => analyze_loop float_repr (DataFrame_of_records []) ids start = Ok start
  | id :: _ =>
      exists f column,
        dict_get AVAILABLE_FILTERS id = Some f
        /\ hd_error (columns_read (class_of f)) = Some column
        /\ analyze_loop float_repr (DataFrame_of_records []) ids start
           = Raise (KeyError column)
  end.
Proof.
  induction ids as [|id0 ids IH]; [reflexivity|].
  destruct (dict_get AVAILABLE_FILTERS id0) as [f0|] eqn:Hf0.
  - rewrite (@catalogued_cons_known id0 ids f0 Hf0).
    destruct (get_result_on_empty_frame _ Hf0) as (column & Hc & Hr).
    exists f0, column. split; [exact Hf0|]. split; [exact Hc|].
    rewrite (@analyze_loop_cons float_repr _ id0 ids start f0 Hf0), Hr. reflexivity.
  - rewrite (@catalogued_cons_unknown id0 ids Hf0).
    rewrite (@analyze_loop_skip float_repr _ id0 ids start Hf0). exact IH.
Qed.

(** X13: with no quarter at all, every filter of the catalogue fails on the
    first column it reads, and so does the analysis. *)
Theorem analysis_of_empty_statement (float_repr : float -> string)
  (self : CompanyAnalyzer) (company : string) (requested : option (list string))
  (cname sec : cell) :
  get_income_statement (api self) company = JList [] ->
  dict_get (get_company_profile (api self) company) "companyName" = Some cname ->
  dict_get (get_company_profile (api self) company) "sector" = Some sec ->
  match catalogued (requested_ids requested) with
  | [] =>
      analyze_company float_repr self company requested
      = Ok (Analysed {| company_name := cname; sector := sec;
                        filters := []; quarterly_data := [] |})
  | id :: _ =>
      exists f column,
        dict_get AVAILABLE_FILTERS id = Some f
        /\ hd_error (columns_read (class_of f)) = Some column
        /\ analyze_company float_repr self company requested
           = Raise (KeyError column)
  end
  /\ (requested = None ->
      analyze_company float_repr self company requested
      = Raise (KeyError "grossProfitRatio"))
  /\ (forall id f, dict_get AVAILABLE_FILTERS id = Some f ->
                   get_quarterly_data float_repr f (DataFrame_of_records []) = Some []).
Proof.
  intros Hst Hname Hsec.
  rewrite (@analyze_company_steps float_repr self company requested [] Hst).
  unfold dict_getitem. rewrite Hname, Hsec. cbn [bind].
  assert (Hframe : analysis_frame self [] = DataFrame_of_records []).
  { unfold analysis_frame. rewrite firstn_nil. reflexivity. }
  rewrite Hframe.
  split; [|split].
  - pose proof (analyze_loop_on_empty_frame float_repr (requested_ids requested)
                  {| company_name := cname; sector := sec;
                     filters := []; quarterly_data := [] |}) as H.
    destruct (catalogued (requested_ids requested)) as [|id rest].
    + rewrite H. reflexivity.
    + destruct H as (f & column & Hf & Hc & ->). exists f, column. auto.
  - intros ->. reflexivity.
  - intros id f _. reflexivity.
Qed.

(** ** The display of an analysis *)

Lemma get_result_displayable (self : FinancialFilter) (income_df : DataFrame)
  (r : Result.t) :
  get_result self income_df = Ok r -> displayable r.
Proof.
  unfold get_result, FinancialFilter_get_result,
    IndustryAdjustedInterestFilter_get_result, displayable.
  intros H.
  destruct (class_of self);
    destruct (calculate self income_df) as [v|e]; cbn [bind] in H;
    try discriminate H;
    try (injection H as <-; cbn [Result.passes Result.threshold];
         destruct (threshold self); [right; eauto | left; reflexivity]).
  destruct (dict_getitem (industry_thresholds self) "Default"); cbn [bind] in H;
    [|discriminate]. injection H as <-. right. cbn. eauto.
Qed.

Lemma Forall_dict_setitem {V : Type} (P : V -> Prop) (d : dict V) (k : string) (v : V) :
  Forall (fun kv => P (snd kv)) d -> P v ->
  Forall (fun kv => P (snd kv)) (dict_setitem d k v).
Proof.
  intros Hd Hv. induction d as [|[k0 v0] d IH]; simpl.
  - constructor; [exact Hv | constructor].
  - inversion Hd; subst. destruct (String.eqb k0 k); constructor; auto.
Qed.

Lemma analyze_loop_displayable (float_repr : float -> string) (income_df : DataFrame)
  (ids : list string) (start final : AnalysisResult) :
  Forall (fun kv => displayable (snd kv)) (filters start) ->
  analyze_loop float_repr income_df ids start = Ok final ->
  Forall (fun kv => displayable (snd kv)) (filters final).
Proof.
  revert start. induction ids as [|id0 ids IH]; intros start Hstart Hloop.
  - injection Hloop as <-. exact Hstart.
  - destruct (dict_get AVAILABLE_FILTERS id0) as [f0|] eqn:Hf0.
    + rewrite (@analyze_loop_cons float_repr income_df id0 ids start f0 Hf0) in Hloop.
      destruct (get_result f0 income_df) as [x0|e] eqn:Hx0; cbn [bind] in Hloop;
        [|discriminate].
      apply (IH _) in Hloop; [exact Hloop|]. cbn [filters].
      apply Forall_dict_setitem; [exact Hstart|].
      exact (@get_result_displayable _ _ _ Hx0).
    + rewrite (@analyze_loop_skip float_repr income_df id0 ids start Hf0) in Hloop.
      exact (IH _ Hstart Hloop).
Qed.

Lemma analysis_displayable (float_repr : float -> string) (self : CompanyAnalyzer)
  (company : string) (requested : option (list string)) (results : AnalysisResult) :
  analyze_company float_repr self company requested = Ok (Analysed results) ->
  Forall (fun kv => displayable (snd kv)) (filters results).
Proof.
  intros H. unfold analyze_company, get_company_data in H.
  destruct (slice_to (n_quarters self) (get_income_statement (api self) company));
    cbn [bind] in H; [|discriminate].
  cbn [company_info income_statement] in H.
  destruct (dict_getitem (get_company_profile (api self) company) "companyName");
    cbn [bind] in H; [|discriminate].
  destruct (dict_getitem (get_company_profile (api self) company) "sector");
    cbn [bind] in H; [|discriminate].
  match type of H with
  | bind ?m _ = _ => destruct m as [r|e] eqn:Hloop; cbn [bind] in H; [|discriminate]
  end.
  injection H as <-.
  eapply analyze_loop_displayable; [|exact Hloop]. constructor.
Qed.

Lemma analysis_is_no_error (float_repr : float -> string) (self : CompanyAnalyzer)
  (company : string) (requested : option (list string)) (a : Analysis) :
  analyze_company float_repr self company requested = Ok a ->
  exists results, a = Analysed results.
Proof.
  intros H. unfold analyze_company, get_company_data in H.
  destruct (slice_to (n_quarters self) (get_income_statement (api self) company));
    cbn [bind] in H; [|discriminate].
  cbn [company_info income_statement] in H.
  destruct (dict_getitem (get_company_profile (api self) company) "companyName");
    cbn [bind] in H; [|discriminate].
  destruct (dict_getitem (get_company_profile (api self) company) "sector");
    cbn [bind] in H; [|discriminate].
  match type of H with
  | bind ?m _ = _ => destruct m as [r|e]; cbn [bind] in H; [|discriminate]
  end.
  injection H as <-. eauto.
Qed.

Lemma format_loop_displayable (entries : dict Result.t) (output : list string) :
  Forall (fun kv => displayable (snd kv)) entries ->
  exists lines,
    format_loop entries output = Ok lines
    /\ List.length lines = (List.length output + 2 * List.length entries)%nat.
Proof.
  revert output. induction entries as [|[name filter_data] entries IH];
    intros output Hall.
  - exists output. split; [reflexivity | simpl; lia].
  - inversion Hall as [|? ? Hd Hrest]; subst. cbn [snd] in Hd.
    cbn [format_loop]. unfold threshold_item.
    destruct Hd as [Hp|[text Ht]].
    + rewrite Hp. cbn [bind].
      match goal with
      | |- exists l, format_loop _ ?out = _ /\ _ =>
          destruct (IH out Hrest) as (lines & Hl & Hlen)
      end.
      exists lines. split; [exact Hl|].
      rewrite Hlen, !length_app. simpl. lia.
    + rewrite Ht. destruct (Result.passes filter_data); cbn [bind];
        match goal with
        | |- exists l, format_loop _ ?out = _ /\ _ =>
            destruct (IH out Hrest) as (lines & Hl & Hlen)
        end;
        exists lines; (split; [exact Hl|]);
        rewrite Hlen, !length_app; simpl; lia.
Qed.

Lemma format_loop_prefix (entries : dict Result.t) (output lines : list string) :
  format_loop entries output = Ok lines -> exists tail, lines = (output ++ tail)%list.
Proof.
  revert output. induction entries as [|[name filter_data] entries IH];
    intros output H.
  - injection H as <-. exists []. rewrite app_nil_r. reflexivity.
  - cbn [format_loop] in H.
    match type of H with
    | bind ?m _ = _ => destruct m as [line|e]; cbn [bind] in H; [|discriminate]
    end.
    destruct (IH _ H) as [tail ->]. rewrite <- !app_assoc. eauto.
Qed.

(** X14: [format_results] never raises on what [analyze_company] returns,
    and writes two lines for the company and two for each filter. *)
Theorem format_results_of_analysis (float_repr : float -> string)
  (self : CompanyAnalyzer) (company : string) (requested : option (list string))
  (a : Analysis) :
  analyze_company float_repr self company requested = Ok a ->
  exists results lines,
    a = Analysed results
    /\ format_results float_repr a = Ok (join newline lines)
    /\ List.length lines = (2 + 2 * List.length (dict_keys (filters results)))%nat
    /\ hd_error lines
       = Some ("Analysis for " ++ py_str float_repr (company_name results)
               ++ " (" ++ py_str float_repr (sector results) ++ ")").
Proof.
  intros H. destruct (@analysis_is_no_error _ _ _ _ _ H) as [results ->].
  pose proof (@analysis_displayable _ _ _ _ _ H) as Hall.
  exists results. unfold format_results.
  match goal with
  | |- exists l, _ /\ bind (format_loop _ ?out) _ = _ /\ _ =>
      destruct (@format_loop_displayable _ out Hall) as (lines & Hl & Hlen);
      pose proof (@format_loop_prefix _ _ _ Hl) as Hpre
  end.
  exists lines. split; [reflexivity|]. rewrite Hl. cbn [bind].
  split; [reflexivity|]. split.
  - rewrite Hlen. unfold dict_keys. rewrite length_map. reflexivity.
  - destruct Hpre as [tail ->]. reflexivity.
Qed.

Lemma convert_loop_displayable (entries : dict Result.t) (rows : list record) :
  Forall (fun kv => displayable (snd kv)) entries ->
  exists new_rows,
    convert_loop entries rows = Ok (rows ++ new_rows)%list
    /\ Forall2 is_row_of entries new_rows.
Proof.
  revert rows. induction entries as [|[name filter_data] entries IH];
    intros rows Hall.
  - exists []. rewrite app_nil_r. split; [reflexivity | constructor].
  - inversion Hall as [|? ? Hd Hrest]; subst. cbn [snd] in Hd.
    cbn [convert_loop]. unfold threshold_item.
    assert (Hstep : forall row : record,
              is_row_of (name, filter_data) row ->
              exists new_rows,
                convert_loop entries (rows ++ [row])%list = Ok (rows ++ new_rows)%list
                /\ Forall2 is_row_of ((name, filter_data) :: entries) new_rows).
    { intros row Hrow. destruct (IH (rows ++ [row])%list Hrest) as (more & Hl & Hr).
      exists (row :: more). rewrite Hl, <- app_assoc. split; [reflexivity|].
      constructor; assumption. }
    assert (Hclass : forall row : record,
              is_row_of (name, filter_data) row ->
              is_row_of (name, filter_data)
                match Result.classification filter_data with
                | Some (Some text) => dict_setitem row "Classification" (CStr text)
                | Some None => dict_setitem row "Classification" CNone
                | None => row
                end).
    { intros row [Hm Hv]. destruct (Result.classification filter_data) as [[text|]|];
        split; rewrite ?dict_get_setitem; assumption. }
    destruct Hd as [Hp|[text Ht]].
    + rewrite Hp. cbn [bind]. apply Hstep, Hclass. split; reflexivity.
    + rewrite Ht. destruct (Result.passes filter_data); cbn [bind];
        apply Hstep, Hclass; split; reflexivity.
Qed.

Lemma union_keys_In_acc (recs : list record) (acc : list string) (k : string) :
  In k (fold_left (fun acc r => fold_left add_key (dict_keys r) acc) recs acc)
  <-> In k acc \/ exists r, In r recs /\ In k (dict_keys r).
Proof.
  revert acc. induction recs as [|r recs IH]; intros acc; simpl.
  - split; [auto | intros [H|(r & [] & _)]; exact H].
  - rewrite IH, fold_add_key_In. split.
    + intros [[H|H]|(r' & Hin & Hk)]; eauto 6.
    + intros [H|(r' & [<-|Hin] & Hk)]; eauto 6.
Qed.

Lemma dict_get_In_key {V : Type} (d : dict V) (k : string) (v : V) :
  dict_get d k = Some v -> In k (dict_keys d).
Proof.
  induction d as [|[k0 v0] d IH]; simpl; [discriminate|].
  destruct (String.eqb_spec k0 k) as [->|Hne]; auto.
Qed.

Lemma dict_get_tabulate {V : Type} (g : string -> V) (keys : list string) (k : string) :
  In k keys -> dict_get (map (fun k => (k, g k)) keys) k = Some (g k).
Proof.
  induction keys as [|k0 keys IH]; simpl; [tauto|].
  intros [->|Hin].
  - rewrite String.eqb_refl. reflexivity.
  - destruct (String.eqb_spec k0 k) as [->|Hne]; auto.
Qed.

Lemma column_of_rows (label : string) (cell_of : string * Result.t -> cell)
  (entries : dict Result.t) (rows : list record) :
  Forall2 (fun entry row => dict_get row label = Some (cell_of entry)) entries rows ->
  map (fun r => match dict_get r label with
                | Some c => c
                | None => CNum nan
                end) rows
  = map cell_of entries.
Proof.
  induction 1 as [|entry row entries rows Hrow _ IH]; simpl; [reflexivity|].
  rewrite Hrow, IH. reflexivity.
Qed.

Lemma text_column (label : string) (text_of : string * Result.t -> string)
  (entries : dict Result.t) (rows : list record) :
  entries <> [] ->
  Forall2 (fun entry row => dict_get row label = Some (CStr (text_of entry)))
    entries rows ->
  getitem (DataFrame_of_records rows) label
  = Ok (map (fun entry => CStr (text_of entry)) entries).
Proof.
  intros Hne Hrows. unfold getitem, dict_getitem, DataFrame_of_records. cbn [data].
  assert (Hin : In label (union_keys rows)).
  { unfold union_keys. apply union_keys_In_acc. right.
    destruct Hrows as [|entry row entries rows Hrow _]; [congruence|].
    exists row. split; [left; reflexivity | exact (dict_get_In_key _ _ Hrow)]. }
  rewrite (dict_get_tabulate
             (fun k => infer_column
                         (map (fun r => match dict_get r k with
                                        | Some c => c
                                        | None => CNum nan
                                        end) rows)) _ _ Hin).
  rewrite (column_of_rows label (fun entry => CStr (text_of entry)) Hrows).
  unfold infer_column.
  destruct entries as [|entry entries]; [congruence|]. reflexivity.
Qed.

(** X15: [convert_results_to_df] never raises on what [analyze_company] returns:
    it builds a table with one row for each filter result, in the order of
    the results, whose ["Metric"] column holds the display names and whose
    ["Value"] column holds the values as percentages with two decimals. *)
Theorem convert_results_of_analysis (float_repr : float -> string)
  (self : CompanyAnalyzer) (company : string) (requested : option (list string))
  (a : Analysis) :
  analyze_company float_repr self company requested = Ok a ->
  exists results df,
    a = Analysed results
    /\ convert_results_to_df a = Ok (Some df)
    /\ nrows df = List.length (dict_keys (filters results))
    /\ (filters results <> [] ->
        getitem df "Metric" = Ok (map metric_cell (filters results))
        /\ getitem df "Value" = Ok (map value_cell (filters results))).
Proof.
  intros H. destruct (@analysis_is_no_error _ _ _ _ _ H) as [results ->].
  pose proof (@analysis_displayable _ _ _ _ _ H) as Hall.
  destruct (@convert_loop_displayable _ [] Hall) as (rows & Hl & Hrows).
  exists results, (DataFrame_of_records rows). split; [reflexivity|].
  unfold convert_results_to_df. rewrite Hl. cbn [bind app].
  split; [reflexivity|]. split.
  - cbn [DataFrame_of_records nrows]. unfold dict_keys. rewrite length_map.
    symmetry. exact (Forall2_length Hrows).
  - intros Hne. split.
    + apply (@text_column "Metric" (fun entry => title (replace_underscores (fst entry)))
               _ _ Hne).
      eapply Forall2_impl; [|exact Hrows]. intros entry row [Hm _]. exact Hm.
    + apply (@text_column "Value" (fun entry => format_percent2 (Result.value (snd entry)))
               _ _ Hne).
      eapply Forall2_impl; [|exact Hrows]. intros entry row [_ Hv]. exact Hv.
Qed.

(* ================================================================== *)
(** * The properties at sample inputs *)
(* ================================================================== *)

Lemma get_result_passes_and_threshold_text_witness :
  threshold GrossProfitRatioFilter_init = Some 0.4%float
  /\ comparison GrossProfitRatioFilter_init = Some ">="
  /\ calculate GrossProfitRatioFilter_init (DataFrame_of_records four_quarters)
     = Ok 0.475%float
  /\ exists r,
       get_result GrossProfitRatioFilter_init (DataFrame_of_records four_quarters) = Ok r
       /\ Result.passes r = Some (compare_spec 0.475 0.4 ">=")
       /\ Result.threshold r = Some "≥ 40%".
Proof.
  split; [reflexivity|]. split; [reflexivity|]. split; [reflexivity|].
  destruct (@get_result_passes_and_threshold_text GrossProfitRatioFilter_init
              (DataFrame_of_records four_quarters) 0.475%float 0.4%float ">=")
    as (r & Hr & _ & Hp & Ht & _).
  - discriminate.
  - reflexivity.
  - reflexivity.
  - simpl; auto.
  - reflexivity.
  - exists r. split; [exact Hr|]. split; [exact Hp|].
    apply Ht; [reflexivity | discriminate].
Defined.

Lemma passes_threshold_fail_open_witness :
  comparison filter_with_unknown_comparison = Some "=="
  /\ passes_threshold filter_with_unknown_comparison 0.1%float = true.
Proof.
  split; [reflexivity|].
  apply (@passes_threshold_fail_open filter_with_unknown_comparison 0.1%float).
  right; right. exists "==". split; [reflexivity|].
  simpl. intros [H|[H|[H|[H|[]]]]]; discriminate H.
Defined.

Lemma get_result_classification_witness :
  calculate GrossProfitRatioFilter_init (DataFrame_of_records four_quarters)
  = Ok 0.475%float
  /\ exists r,
       get_result GrossProfitRatioFilter_init (DataFrame_of_records four_quarters) = Ok r
       /\ Result.classification r
          = Some (get_classification GrossProfitRatioFilter_init 0.475%float).
Proof.
  split; [reflexivity|].
  destruct (@get_result_classification GrossProfitRatioFilter_init
              (DataFrame_of_records four_quarters) 0.475%float)
    as (r & Hr & Hc & _).
  - discriminate.
  - discriminate.
  - reflexivity.
  - exists r. split; [exact Hr | exact Hc].
Defined.

Lemma quarterly_series_length_and_labels_witness :
  dict_get AVAILABLE_FILTERS "gross_profit_ratio" = Some GrossProfitRatioFilter_init
  /\ numeric_column (DataFrame_of_records four_quarters) "grossProfitRatio" = true
  /\ exists s,
       get_quarterly_data sample_float_repr GrossProfitRatioFilter_init
         (DataFrame_of_records four_quarters) = Some s
       /\ List.length s = 4.
Proof.
  split; [reflexivity|]. split; [reflexivity|].
  destruct (@quarterly_series_length_and_labels sample_float_repr
              "gross_profit_ratio" GrossProfitRatioFilter_init
              (DataFrame_of_records four_quarters))
    as (s & Hs & Hlen & _).
  - reflexivity.
  - intros col [<-|[]]. reflexivity.
  - exists s. split; [exact Hs | exact Hlen].
Defined.

Lemma analysis_keys_follow_request_witness :
  exists results,
    analyze_company sample_float_repr (CompanyAnalyzer_init sample_provider)
      "Sample Corp"
      (Some ["not_a_real_filter"; "gross_profit_ratio"; "gross_profit_ratio"])
    = Ok (Analysed results)
    /\ dict_keys (filters results) = ["gross_profit_ratio"].
Proof.
  destruct (@analysis_keys_follow_request sample_float_repr
              (CompanyAnalyzer_init sample_provider) "Sample Corp"
              ["not_a_real_filter"; "gross_profit_ratio"; "gross_profit_ratio"])
    as [Hkeys Hreturns].
  destruct (Hreturns (CStr "Sample Corp") (CStr "Technology") (rev four_quarters))
    as (results & Hr & _).
  - reflexivity.
  - reflexivity.
  - reflexivity.
  - intros id filter_obj [<-|[<-|[<-|[]]]] H; vm_compute in H;
      first [discriminate H | injection H as <-; eexists; reflexivity].
  - exists results. split; [exact Hr|].
    destruct (Hkeys results Hr) as [Hk _]. exact Hk.
Defined.

Lemma industry_interest_default_threshold_witness :
  calculate IndustryAdjustedInterestFilter_init (DataFrame_of_records interest_quarters)
  = Ok 0.2%float
  /\ get_result IndustryAdjustedInterestFilter_init
       (DataFrame_of_records interest_quarters)
     = Ok {| Result.value := 0.2%float;
             Result.description := description IndustryAdjustedInterestFilter_init;
             Result.passes := Some (0.2 <=? 0.20)%float;
             Result.threshold := Some "≤ 20%";
             Result.classification := None;
             Result.guidelines := None |}.
Proof.
  split; [reflexivity|].
  apply (@industry_interest_default_threshold IndustryAdjustedInterestFilter_init
           (DataFrame_of_records interest_quarters) 0.2%float);
    reflexivity.
Defined.

Lemma gross_profit_four_quarters_witness :
  getitem (DataFrame_of_records four_quarters) "grossProfitRatio"
  = Ok [CNum 0.5%float; CNum 0.45%float; CNum 0.55%float; CNum 0.40%float]
  /\ calculate GrossProfitRatioFilter_init (DataFrame_of_records four_quarters)
     = Ok 0.475%float.
Proof.
  split; [reflexivity|].
  apply (@gross_profit_four_quarters (DataFrame_of_records four_quarters)).
  reflexivity.
Defined.

Lemma classifications_exhaustive_witness :
  In GrossProfitRatioFilter_init all_filters
  /\ classifications GrossProfitRatioFilter_init <> []
  /\ exists d, get_classification GrossProfitRatioFilter_init 0.5%float = Some d.
Proof.
  assert (Hin : In GrossProfitRatioFilter_init all_filters)
    by (right; left; reflexivity).
  assert (Hne : classifications GrossProfitRatioFilter_init <> []) by discriminate.
  split; [exact Hin|]. split; [exact Hne|].
  exact (@classifications_exhaustive GrossProfitRatioFilter_init 0.5%float Hin Hne).
Defined.

Lemma passes_iff_first_band_witness :
  In SGARatioFilter_init threshold_is_first_bound
  /\ is_nan 0.25%float = false
  /\ (passes_threshold SGARatioFilter_init 0.25%float = true <->
      get_classification SGARatioFilter_init 0.25%float
      = first_band SGARatioFilter_init).
Proof.
  assert (Hin : In SGARatioFilter_init threshold_is_first_bound)
    by (right; left; reflexivity).
  split; [exact Hin|]. split; [reflexivity|].
  exact (proj1 (@passes_iff_first_band SGARatioFilter_init 0.25%float Hin eq_refl)).
Defined.

Lemma all_null_column_result_witness :
  getitem (DataFrame_of_records null_ratio_quarters) "grossProfitRatio"
  = Ok [CNum nan; CNum nan]
  /\ exists r,
       get_result GrossProfitRatioFilter_init (DataFrame_of_records null_ratio_quarters)
       = Ok r
       /\ Result.value r = nan
       /\ Result.passes r = Some false.
Proof.
  split; [reflexivity|].
  destruct (@all_null_column_result GrossProfitRatioFilter_init
              (DataFrame_of_records null_ratio_quarters) "grossProfitRatio"
              [CNum nan; CNum nan])
    as (r & Hr & Hv & Hp & _).
  - left; reflexivity.
  - reflexivity.
  - reflexivity.
  - reflexivity.
  - exists r. split; [exact Hr|]. split; [exact Hv | exact Hp].
Defined.

Lemma calculate_key_errors_witness :
  class_of SGARatioFilter_init <> FinancialFilter_class
  /\ first_missing (DataFrame_of_records quarters_without_gross_profit)
       (columns_read (class_of SGARatioFilter_init))
     = Some "grossProfit"
  /\ calculate SGARatioFilter_init (DataFrame_of_records quarters_without_gross_profit)
     = Raise (KeyError "grossProfit").
Proof.
  assert (Hcls : class_of SGARatioFilter_init <> FinancialFilter_class) by discriminate.
  split; [exact Hcls|]. split; [reflexivity|].
  apply (proj1 (@calculate_key_errors SGARatioFilter_init
                  (DataFrame_of_records quarters_without_gross_profit) Hcls)).
  reflexivity.
Defined.


Lemma revenue_trend_series_all_nan_witness :
  exists s,
    get_quarterly_data sample_float_repr RevenueTrendFilter_init
      (DataFrame_of_records zero_revenue_quarters) = Some s
    /\ List.length s = 3
    /\ Forall (fun point => snd point = nan) s.
Proof.
  apply (proj1 (@revenue_trend_series_all_nan sample_float_repr RevenueTrendFilter_init
                  (DataFrame_of_records zero_revenue_quarters) eq_refl eq_refl)).
Defined.

Lemma sga_consistency_series_all_nan_witness :
  exists s,
    get_quarterly_data sample_float_repr SGAConsistencyFilter_init
      (DataFrame_of_records zero_gross_profit_quarters) = Some s
    /\ List.length s = 2
    /\ Forall (fun point => snd point = nan) s.
Proof.
  apply (@sga_consistency_series_all_nan sample_float_repr SGAConsistencyFilter_init
           (DataFrame_of_records zero_gross_profit_quarters));
    reflexivity.
Defined.

Lemma revenue_trend_zero_revenue_witness :
  calculate RevenueTrendFilter_init (DataFrame_of_records zero_revenue_quarters)
  = Ok infinity
  /\ finite_float infinity = false.
Proof.
  split; [reflexivity|].
  apply (@revenue_trend_zero_revenue RevenueTrendFilter_init
           (DataFrame_of_records zero_revenue_quarters)
           [CInt 0; CInt 10; CInt 20] 0 (CInt 0) 0%float false infinity);
    solve [reflexivity | simpl; lia].
Defined.

Lemma analysis_contents_witness :
  exists results x,
    analyze_company sample_float_repr (CompanyAnalyzer_init sample_provider)
      "Sample Corp" (Some ["gross_profit_ratio"])
    = Ok (Analysed results)
    /\ dict_get (filters results) "gross_profit_ratio" = Some x
    /\ get_result GrossProfitRatioFilter_init
         (analysis_frame (CompanyAnalyzer_init sample_provider) (rev four_quarters))
       = Ok x.
Proof.
  eexists. eexists. split; [reflexivity|]. split; [reflexivity|].
  assert (H : dict_get AVAILABLE_FILTERS "gross_profit_ratio"
              = Some GrossProfitRatioFilter_init) by reflexivity.
  destruct (proj1 (proj1 (@analysis_contents sample_float_repr
                            (CompanyAnalyzer_init sample_provider) "Sample Corp"
                            (Some ["gross_profit_ratio"]) (rev four_quarters)
                            _ eq_refl eq_refl)
                     "gross_profit_ratio" _) eq_refl)
    as (_ & f & Hf & Hx).
  rewrite H in Hf. injection Hf as <-. exact Hx.
Defined.

Lemma analysis_series_witness :
  exists results s,
    analyze_company sample_float_repr (CompanyAnalyzer_init sample_provider)
      "Sample Corp" (Some ["gross_profit_ratio"])
    = Ok (Analysed results)
    /\ dict_get (quarterly_data results) "gross_profit_ratio" = Some s
    /\ List.length s = 4.
Proof.
  eexists. eexists. split; [reflexivity|]. split; [reflexivity|].
  exact (proj1 (proj2 (@analysis_series sample_float_repr
                         (CompanyAnalyzer_init sample_provider) "Sample Corp"
                         (Some ["gross_profit_ratio"]) (rev four_quarters)
                         _ "gross_profit_ratio" _ eq_refl eq_refl eq_refl))).
Defined.

Lemma analysis_first_failure_witness :
  analyze_company sample_float_repr (CompanyAnalyzer_init sample_provider)
    "Sample Corp" (Some ["gross_profit_ratio"; "sga_ratio"; "rd_ratio"])
  = Raise (KeyError "sellingGeneralAndAdministrativeExpenses").
Proof.
  apply (proj2 (@analysis_first_failure sample_float_repr
                  (CompanyAnalyzer_init sample_provider) "Sample Corp"
                  (Some ["gross_profit_ratio"; "sga_ratio"; "rd_ratio"])
                  (rev four_quarters) (CStr "Sample Corp") (CStr "Technology")
                  (KeyError "sellingGeneralAndAdministrativeExpenses")
                  eq_refl eq_refl eq_refl)).
  exists ["gross_profit_ratio"], "sga_ratio", ["rd_ratio"], SGARatioFilter_init.
  split; [reflexivity|]. split; [|split; reflexivity].
  intros id' f' [<-|[]] H. vm_compute in H. injection H as <-.
  eexists. reflexivity.
Defined.

Lemma analysis_of_empty_statement_witness :
  analyze_company sample_float_repr (CompanyAnalyzer_init empty_statement_provider)
    "Sample Corp" None
  = Raise (KeyError "grossProfitRatio").
Proof.
  apply (proj1 (proj2 (@analysis_of_empty_statement sample_float_repr
                         (CompanyAnalyzer_init empty_statement_provider)
                         "Sample Corp" None (CStr "Sample Corp") (CStr "Technology")
                         eq_refl eq_refl eq_refl))).
  reflexivity.
Defined.

Lemma format_results_of_analysis_witness :
  exists a lines,
    analyze_company sample_float_repr (CompanyAnalyzer_init sample_provider)
      "Sample Corp" (Some ["gross_profit_ratio"])
    = Ok a
    /\ format_results sample_float_repr a = Ok (join newline lines)
    /\ List.length lines = 4.
Proof.
  eexists.
  destruct (@format_results_of_analysis sample_float_repr
              (CompanyAnalyzer_init sample_provider) "Sample Corp"
              (Some ["gross_profit_ratio"]) _ eq_refl)
    as (results & lines & Ha & Hf & Hlen & _).
  exists lines. split; [reflexivity|]. split; [exact Hf|].
  injection Ha as <-. exact Hlen.
Defined.

Lemma convert_results_of_analysis_witness :
  exists a df,
    analyze_company sample_float_repr (CompanyAnalyzer_init sample_provider)
      "Sample Corp" (Some ["gross_profit_ratio"])
    = Ok a
    /\ convert_results_to_df a = Ok (Some df)
    /\ nrows df = 1
    /\ getitem df "Metric" = Ok [CStr "Gross Profit Ratio"]
    /\ getitem df "Value" = Ok [CStr "47.50%"].
Proof.
  eexists.
  destruct (@convert_results_of_analysis sample_float_repr
              (CompanyAnalyzer_init sample_provider) "Sample Corp"
              (Some ["gross_profit_ratio"]) _ eq_refl)
    as (results & df & Ha & Hc & Hrows & Hcols).
  exists df. split; [reflexivity|]. split; [exact Hc|].
  injection Ha as <-. split; [exact Hrows|]. apply Hcols. discriminate.
Defined.
